(** * The MessageBird MCP server: request/response translation layer

    A shallow embedding of [src/client.ts] (the dispatch layer) and of the
    tool handlers of [src/tools/*.ts] and [build/tools/templates.js],
    followed by the properties the specification states about them.

    Conventions of the embedding.
    - A JavaScript string is the [string] of its UTF-8 bytes.
    - A JavaScript number is represented by the text JavaScript prints for
      it ([Number::toString]): the program never computes with a number, it
      only tests its truthiness and interpolates it.
    - The platform functions the program calls but does not define
      ([fetch], [JSON.parse], [JSON.stringify], the environment) are the
      fields of a [Platform] record.
    - An [async] function is a computation in the monad [M], which threads
      the list of HTTP requests issued so far and ends normally or with a
      thrown error. *)

From Stdlib Require Import String Ascii List Bool Arith Lia.
From Stdlib Require Import Numbers.DecimalString.
Import ListNotations.
Open Scope list_scope.
Open Scope string_scope.
Set Warnings "-register-all".

(** ** JavaScript values and the language operations the program uses *)

Module JS.

(** A number, as the text JavaScript prints for it. *)
Definition number : Type := string.

Inductive jsval : Type :=
| JUndefined
| JNull
| JBool (b : bool)
| JNum (n : number)
| JStr (s : string)
| JArr (elements : list jsval)
| JObj (properties : list (string * jsval)).

(** An optional input of a handler: [None] is [undefined]. *)
Definition optstr (o : option string) : jsval :=
  match o with Some s => JStr s | None => JUndefined end.

Definition optnum (o : option number) : jsval :=
  match o with Some n => JNum n | None => JUndefined end.

(** [`${o}`] for an optional string. *)
Definition interpolate_optstr (o : option string) : string :=
  match o with Some s => s | None => "undefined" end.

(** [l && l.length > 0] for an optional array. *)
Definition non_empty {A : Type} (l : option (list A)) : bool :=
  match l with
  | Some xs => (0 <? List.length xs)%nat
  | None => false
  end.

(** The elements of an optional array that a guard has shown present. *)
Definition elements_of {A : Type} (l : option (list A)) : list A :=
  match l with Some xs => xs | None => [] end.

(** [ToBoolean]: what [if (v)], [v && _], [v || _] and [!v] test. *)
Definition truthy (v : jsval) : bool :=
  match v with
  | JUndefined | JNull => false
  | JBool b => b
  | JNum n => negb ((n =? "0") || (n =? "NaN"))
  | JStr s => negb (s =? "")
  | JArr _ | JObj _ => true
  end.

(** [a || b] *)
Definition or_else (a b : jsval) : jsval := if truthy a then a else b.

(** *** Objects: own properties in insertion order *)

Definition props : Type := list (string * jsval).

(** [o[k]] on the own properties of an object. *)
Fixpoint prop_get (k : string) (o : props) : jsval :=
  match o with
  | [] => JUndefined
  | (k', v) :: rest => if k' =? k then v else prop_get k rest
  end.

(** [k in o] *)
Fixpoint prop_has (k : string) (o : props) : bool :=
  match o with
  | [] => false
  | (k', _) :: rest => (k' =? k) || prop_has k rest
  end.

(** [o[k] = v]: overwrite in place, or append a new property. *)
Fixpoint prop_set (k : string) (v : jsval) (o : props) : props :=
  match o with
  | [] => [(k, v)]
  | (k', v') :: rest =>
      if k' =? k then (k, v) :: rest else (k', v') :: prop_set k v rest
  end.

(** [delete o[k]] *)
Fixpoint prop_delete (k : string) (o : props) : props :=
  match o with
  | [] => []
  | (k', v') :: rest =>
      if k' =? k then prop_delete k rest else (k', v') :: prop_delete k rest
  end.

(** [if (c) o[k] = v;] *)
Definition set_if (c : bool) (k : string) (v : jsval) (o : props) : props :=
  if c then prop_set k v o else o.

(** Does the key occur anywhere inside the value, at any depth? *)
Fixpoint mentions_key (k : string) (v : jsval) : bool :=
  match v with
  | JArr xs =>
      (fix any (l : list jsval) : bool :=
         match l with
         | [] => false
         | x :: r => mentions_key k x || any r
         end) xs
  | JObj o =>
      (fix any (l : props) : bool :=
         match l with
         | [] => false
         | (k', x) :: r => (k' =? k) || mentions_key k x || any r
         end) o
  | _ => false
  end.

(** [k in v] for an object [v]. *)
Definition has_member (v : jsval) (k : string) : bool :=
  match v with
  | JObj o => prop_has k o
  | _ => false
  end.

(** *** Property reads on arbitrary values

    [v.name] for a [name] that no built-in prototype defines (the program
    reads [errors] and [description]): only an object can have it.  The
    value must not be [null] or [undefined]; the caller checks. *)
Definition member (v : jsval) (name : string) : jsval :=
  match v with
  | JObj o => prop_get name o
  | _ => JUndefined
  end.

(** [v[0]] for a value that is neither [null] nor [undefined]: the first
    element of an array, the property ["0"] of an object, the first
    character of a non-empty string.  That character is again a string, of
    which the embedding keeps the first byte: the program only goes on to
    read a property of it, and a string has none of its own. *)
Definition index0 (v : jsval) : jsval :=
  match v with
  | JArr (x :: _) => x
  | JObj o => prop_get "0" o
  | JStr (String c _) => JStr (String c "")
  | _ => JUndefined
  end.

Definition nullish (v : jsval) : bool :=
  match v with JUndefined | JNull => true | _ => false end.

(** [v?.[0]] and [v?.name] *)
Definition opt_index0 (v : jsval) : jsval :=
  if nullish v then JUndefined else index0 v.

Definition opt_member (v : jsval) (name : string) : jsval :=
  if nullish v then JUndefined else member v name.

(** *** [ToString], as a template literal applies it

    [None] is the [TypeError] "Cannot convert object to primitive value":
    an object whose own [toString] property is not callable (no parsed
    JSON value is) has no primitive form.  An array prints its elements
    joined by commas, [null] and [undefined] elements as the empty
    string. *)
Fixpoint ToString (v : jsval) : option string :=
  match v with
  | JUndefined => Some "undefined"
  | JNull => Some "null"
  | JBool true => Some "true"
  | JBool false => Some "false"
  | JNum n => Some n
  | JStr s => Some s
  | JArr xs =>
      (fix join (l : list jsval) : option string :=
         match l with
         | [] => Some ""
         | x :: r =>
             let element :=
               if nullish x then Some "" else ToString x in
             match element, r with
             | None, _ => None
             | Some e, [] => Some e
             | Some e, _ :: _ =>
                 match join r with
                 | Some t => Some (e ++ "," ++ t)
                 | None => None
                 end
             end
         end) xs
  | JObj o =>
      if prop_has "toString" o then None else Some "[object Object]"
  end.

(** [Number::toString] of a non-negative integer (an HTTP status). *)
Definition nat_to_string (n : nat) : string :=
  NilEmpty.string_of_uint (Nat.to_uint n).

(** *** Strings *)

(** [s.includes(sub)] *)
Fixpoint includes (s sub : string) : bool :=
  prefix sub s ||
  match s with
  | "" => false
  | String _ rest => includes rest sub
  end.

Definition is_digit (c : ascii) : bool :=
  ((48 <=? nat_of_ascii c) && (nat_of_ascii c <=? 57))%nat.

(** The rest of [s] after its leading digits, and how many they are. *)
Fixpoint skip_digits (s : string) : nat * string :=
  match s with
  | String c rest =>
      if is_digit c
      then let (n, r) := skip_digits rest in (S n, r)
      else (0, s)
  | "" => (0, "")
  end.

(** The rest of [s] after the two characters [a] and [b], when it starts
    with them. *)
Definition after_pair (a b : ascii) (s : string) : option string :=
  match s with
  | String x (String y rest) =>
      if Ascii.eqb x a && Ascii.eqb y b then Some rest else None
  | _ => None
  end.

(** A match of [/\{\{\d+\}\}/] at the start of [s]: what follows it.
    [\d+] is greedy; giving a digit back cannot help, since the character
    after a shorter run is a digit and not a brace. *)
Definition match_placeholder (s : string) : option string :=
  match after_pair "{" "{" s with
  | Some r =>
      let (n, rest) := skip_digits r in
      if (0 <? n)%nat then after_pair "}" "}" rest else None
  | None => None
  end.

(** [s.replace(/\{\{\d+\}\}/g, by)]: scan from the left; at a match emit
    [by] and go on after the match, otherwise copy one character.  The
    fuel bounds the number of steps; [String.length s] is enough. *)
Fixpoint replace_placeholders_from (fuel : nat) (by_ s : string) : string :=
  match fuel, s with
  | _, "" => ""
  | 0, _ => s
  | S fuel', String c rest =>
      match match_placeholder s with
      | Some after => by_ ++ replace_placeholders_from fuel' by_ after
      | None => String c (replace_placeholders_from fuel' by_ rest)
      end
  end.

Definition replace_placeholders (s by_ : string) : string :=
  replace_placeholders_from (String.length s) by_ s.

(** *** [URLSearchParams] *)

Definition URLSearchParams : Type := list (string * string).

(** [params.set(name, value)]: the first pair named [name] takes the
    value and the later ones are removed; without one the pair is
    appended. *)
Fixpoint URLSearchParams_set
  (params : URLSearchParams) (name value : string) : URLSearchParams :=
  match params with
  | [] => [(name, value)]
  | (n, v) :: rest =>
      if n =? name
      then (name, value) :: filter (fun p => negb (fst p =? name)) rest
      else (n, v) :: URLSearchParams_set rest name value
  end.

Definition hex_digit (n : nat) : ascii :=
  match get n "0123456789ABCDEF" with Some c => c | None => "0"%char end.

Definition percent_encode_byte (c : ascii) : string :=
  let n := nat_of_ascii c in
  String "%" (String (hex_digit (n / 16)%nat) (String (hex_digit (n mod 16)%nat) "")).

(** The bytes the application/x-www-form-urlencoded serializer leaves as
    they are: [*], [-], [.], [_], the digits and the ASCII letters. *)
Definition urlencoded_plain (c : ascii) : bool :=
  let n := nat_of_ascii c in
  ((n =? 42) || (n =? 45) || (n =? 46) || (n =? 95) ||
   ((48 <=? n) && (n <=? 57)) ||
   ((65 <=? n) && (n <=? 90)) ||
   ((97 <=? n) && (n <=? 122)))%nat.

Definition urlencode_byte (c : ascii) : string :=
  if (nat_of_ascii c =? 32)%nat then "+"
  else if urlencoded_plain c then String c ""
  else percent_encode_byte c.

Fixpoint urlencode (s : string) : string :=
  match s with
  | "" => ""
  | String c rest => urlencode_byte c ++ urlencode rest
  end.

Fixpoint join_with (sep : string) (l : list string) : string :=
  match l with
  | [] => ""
  | [x] => x
  | x :: rest => x ++ sep ++ join_with sep rest
  end.

Definition encode_pair (p : string * string) : string :=
  urlencode (fst p) ++ "=" ++ urlencode (snd p).

(** [params.toString()] *)
Definition URLSearchParams_toString (params : URLSearchParams) : string :=
  join_with "&" (map encode_pair params).

End JS.

(** ** The dispatch layer: [src/client.ts] and [src/auth.ts] *)

Module Client.
Import JS.

(** A thrown [Error] object.  [error_status] is the [status] field that
    [MessageBirdApiError] adds. *)
Record JsError : Type := {
  error_name : string;
  message : string;
  error_status : option nat
}.

(** [new MessageBirdApiError(status, message)] *)
Definition MessageBirdApiError (status : nat) (msg : string) : JsError :=
  {| error_name := "MessageBirdApiError";
     message := msg;
     error_status := Some status |}.

(** The [TypeError] the engine raises by itself. *)
Definition TypeError (msg : string) : JsError :=
  {| error_name := "TypeError"; message := msg; error_status := None |}.

Inductive Completion (A : Type) : Type :=
| Normal (a : A)
| Throw (e : JsError).
Arguments Normal {A} a.
Arguments Throw {A} e.

Inductive Method : Type := GET | POST | PUT | PATCH | DELETE.

(** What [fetch(url, { method, headers, body })] receives. *)
Record HttpRequest : Type := {
  req_url : string;
  req_method : Method;
  req_headers : list (string * string);
  req_body : option string
}.

(** What the program reads of a [Response]; [json] is the outcome of
    [response.json()]. *)
Record Response : Type := {
  status : nat;
  statusText : string;
  json : Completion jsval
}.

(** [response.ok] *)
Definition ok (response : Response) : bool :=
  ((200 <=? status response) && (status response <=? 299))%nat.

(** The platform under the program.  [fetch] rejects ([Throw]) on a network
    failure.  [JSON_stringify v n] is [JSON.stringify(v, null, n)], and
    [JSON.stringify(v)] for [n = 0]. *)
Record Platform : Type := {
  API_KEY : string;
  fetch : HttpRequest -> Completion Response;
  JSON_stringify : jsval -> nat -> string;
  JSON_parse : string -> Completion jsval
}.

(** Computations: the requests issued so far are threaded through, and a
    computation completes normally or throws. *)
Definition M (A : Type) : Type :=
  list HttpRequest -> Completion A * list HttpRequest.

Definition ret {A : Type} (a : A) : M A := fun log => (Normal a, log).

Definition throw {A : Type} (e : JsError) : M A := fun log => (Throw e, log).

Definition bind {A B : Type} (c : M A) (k : A -> M B) : M B :=
  fun log =>
    match c log with
    | (Normal a, log') => k a log'
    | (Throw e, log') => (Throw e, log')
    end.

Definition lift {A : Type} (c : Completion A) : M A := fun log => (c, log).

(** [try { c } catch (error) { handler }] *)
Definition try_catch {A : Type} (c : M A) (handler : JsError -> M A) : M A :=
  fun log =>
    match c log with
    | (Normal a, log') => (Normal a, log')
    | (Throw e, log') => handler e log'
    end.

Notation "x <- c ;; k" := (bind c (fun x => k))
  (at level 61, c at next level, right associativity).

Inductive ApiTarget : Type := conversations | integrations | rest.

Definition CONVERSATIONS_BASE_URL : string :=
  "https://conversations.messagebird.com/v1".
Definition INTEGRATIONS_BASE_URL : string :=
  "https://integrations.messagebird.com".
Definition REST_BASE_URL : string := "https://rest.messagebird.com".

Definition getBaseUrl (target : ApiTarget) : string :=
  match target with
  | conversations => CONVERSATIONS_BASE_URL
  | integrations => INTEGRATIONS_BASE_URL
  | rest => REST_BASE_URL
  end.

(** The entries of a query-parameter object, [Object.entries(queryParams)]:
    each key once, a value [None] for [undefined]. *)
Definition QueryParams : Type := list (string * option string).

(** One turn of the loop of [apiRequest] over the entries. *)
Definition collect_step
  (params : URLSearchParams) (entry : string * option string)
  : URLSearchParams :=
  match entry with
  | (key, Some value) =>
      if negb (value =? "")
      then URLSearchParams_set params key value
      else params
  | (_, None) => params
  end.

(** The loop, from a fresh [URLSearchParams]. *)
Definition collect_params (entries : QueryParams) : URLSearchParams :=
  fold_left collect_step entries [].

(** The URL [apiRequest] hands to [fetch]. *)
Definition request_url
  (target : ApiTarget) (endpoint : string) (queryParams : option QueryParams)
  : string :=
  let url := getBaseUrl target ++ endpoint in
  match queryParams with
  | None => url
  | Some entries =>
      let qs := URLSearchParams_toString (collect_params entries) in
      if truthy (JStr qs) then url ++ "?" ++ qs else url
  end.

Definition request_headers (P : Platform) (body : option jsval)
  : list (string * string) :=
  let authorization := "AccessKey " ++ API_KEY P in
  app [("Authorization", authorization); ("Accept", "application/json")]
      match body with
      | Some _ => [("Content-Type", "application/json")]
      | None => []
      end.

(** [await fetch(...)]: the request joins the log, whatever comes back. *)
Definition do_fetch (P : Platform) (request : HttpRequest) : M Response :=
  fun log => (fetch P request, (log ++ [request])%list).

(** [error.errors]: reading a property of [null] throws. *)
Definition read_errors (error : jsval) : Completion jsval :=
  match error with
  | JNull =>
      Throw (TypeError "Cannot read properties of null (reading 'errors')")
  | JUndefined =>
      Throw (TypeError "Cannot read properties of undefined (reading 'errors')")
  | _ => Normal (member error "errors")
  end.

(** [`${msg}`] *)
Definition interpolate (v : jsval) : Completion string :=
  match ToString v with
  | Some s => Normal s
  | None => Throw (TypeError "Cannot convert object to primitive value")
  end.

(** The request [apiRequest] hands to [fetch]. *)
Definition http_request
  (P : Platform) (endpoint : string) (method : Method) (body : option jsval)
  (queryParams : option QueryParams) (target : ApiTarget) : HttpRequest :=
  {| req_url := request_url target endpoint queryParams;
     req_method := method;
     req_headers := request_headers P body;
     req_body := option_map (fun b => JSON_stringify P b 0) body |}.

Definition apiRequest
  (P : Platform) (endpoint : string) (method : Method) (body : option jsval)
  (queryParams : option QueryParams) (target : ApiTarget) : M jsval :=
  response <- do_fetch P
    (http_request P endpoint method body queryParams target) ;;
  if (status response =? 204)%nat then ret (JObj [])
  else if negb (ok response) then
    error <- try_catch (lift (json response)) (fun _ => ret (JObj [])) ;;
    errors <- lift (read_errors error) ;;
    let msg :=
      or_else (opt_member (opt_index0 errors) "description")
              (JStr (statusText response)) in
    if (status response =? 429)%nat
    then throw (MessageBirdApiError 429
                  "Rate limit exceeded. Try again in a moment.")
    else
      text <- lift (interpolate msg) ;;
      throw (MessageBirdApiError (status response)
               ("MessageBird API error (" ++ nat_to_string (status response)
                ++ "): " ++ text))
  else lift (json response).

(** One item of a tool result's [content]. *)
Record TextContent : Type := {
  item_type : string;
  item_text : string
}.

(** A tool result; [isError] is [None] when the field is absent. *)
Record ToolResult : Type := {
  isError : option bool;
  content : list TextContent
}.

Definition toolResult (P : Platform) (data : jsval) : ToolResult :=
  {| isError := None;
     content :=
       [ {| item_type := "text"; item_text := JSON_stringify P data 2 |} ] |}.

Definition toolError (msg : string) : ToolResult :=
  {| isError := Some true;
     content := [ {| item_type := "text"; item_text := msg |} ] |}.

End Client.

(** ** Messaging tools: [src/tools/messaging.ts]

    Each handler is split into the request body it builds, a pure function
    of the validated input, and the handler proper, which sends it. *)

Module Messaging.
Import JS Client.

Definition send_text_body
  (to from text : string) (disable_url_preview : option bool)
  (report_url : option string) : jsval :=
  let body :=
    [ ("to", JStr to);
      ("from", JStr from);
      ("type", JStr "text");
      ("content",
       JObj (("text", JStr text) ::
             match disable_url_preview with
             | Some b => [("disableUrlPreview", JBool b)]
             | None => []
             end)) ] in
  let body :=
    set_if (truthy (optstr report_url)) "reportUrl" (optstr report_url) body in
  JObj body.

Definition send_media_content
  (media_type media_url : string) (caption : option string) : jsval :=
  let mediaContent := [("url", JStr media_url)] in
  let mediaContent :=
    set_if (truthy (optstr caption) && negb (media_type =? "audio"))
           "caption" (optstr caption) mediaContent in
  JObj [(media_type, JObj mediaContent)].

Definition send_media_body
  (to from media_type media_url : string) (caption : option string) : jsval :=
  JObj [ ("to", JStr to);
         ("from", JStr from);
         ("type", JStr media_type);
         ("content", send_media_content media_type media_url caption) ].

Definition send_location_body
  (to from : string) (latitude longitude : number)
  (name address : option string) : jsval :=
  let location := [("latitude", JNum latitude); ("longitude", JNum longitude)] in
  let location := set_if (truthy (optstr name)) "name" (optstr name) location in
  let location :=
    set_if (truthy (optstr address)) "address" (optstr address) location in
  JObj [ ("to", JStr to);
         ("from", JStr from);
         ("type", JStr "location");
         ("content", JObj [("location", JObj location)]) ].

(** The [hsm] object of [send_template]. *)
Definition send_template_hsm
  (namespace template_name language_code : string)
  (parameters : option (list string))
  (header_image_url header_video_url header_document_url
   button_url_suffix : option string) : props :=
  let hsm :=
    [ ("namespace", JStr namespace);
      ("templateName", JStr template_name);
      ("language",
       JObj [("policy", JStr "deterministic"); ("code", JStr language_code)]) ] in
  (* Simple params (legacy format) *)
  let hsm :=
    set_if (non_empty parameters
            && negb (truthy (optstr header_image_url))
            && negb (truthy (optstr header_video_url))
            && negb (truthy (optstr header_document_url))
            && negb (truthy (optstr button_url_suffix)))
           "params"
           (JArr (map (fun p => JObj [("default", JStr p)])
                      (elements_of parameters)))
           hsm in
  (* Components format (for media headers and/or buttons) *)
  let components : list jsval := [] in
  let header (kind : string) (url : option string) : jsval :=
    JObj [ ("type", JStr "header");
           ("parameters",
            JArr [ JObj [ ("type", JStr kind);
                          (kind, JObj [("url", optstr url)]) ] ]) ] in
  let components :=
    if truthy (optstr header_image_url)
    then app components [header "image" header_image_url]
    else if truthy (optstr header_video_url)
    then app components [header "video" header_video_url]
    else if truthy (optstr header_document_url)
    then app components [header "document" header_document_url]
    else components in
  let components :=
    if non_empty parameters && (0 <? List.length components)%nat
    then app components
           [ JObj [ ("type", JStr "body");
                    ("parameters",
                     JArr (map (fun p =>
                                  JObj [("type", JStr "text"); ("text", JStr p)])
                               (elements_of parameters))) ] ]
    else components in
  let components :=
    if truthy (optstr button_url_suffix)
    then app components
           [ JObj [ ("type", JStr "button");
                    ("sub_type", JStr "url");
                    ("parameters",
                     JArr [ JObj [ ("type", JStr "text");
                                   ("text", optstr button_url_suffix) ] ]) ] ]
    else components in
  if (0 <? List.length components)%nat
  then
    let hsm := prop_set "components" (JArr components) hsm in
    (* When using components format, body params go in components *)
    if non_empty parameters then prop_delete "params" hsm else hsm
  else hsm.

Definition send_template_body
  (to from namespace template_name language_code : string)
  (parameters : option (list string))
  (header_image_url header_video_url header_document_url
   button_url_suffix : option string) : jsval :=
  JObj [ ("to", JStr to);
         ("from", JStr from);
         ("type", JStr "hsm");
         ("content",
          JObj [("hsm",
                 JObj (send_template_hsm namespace template_name language_code
                         parameters header_image_url header_video_url
                         header_document_url button_url_suffix))]) ].

(** The [interactive] object of [send_interactive_buttons]; a button is
    its [(id, title)]. *)
Definition send_interactive_buttons_interactive
  (body_text : string) (buttons : list (string * string))
  (header_text header_image_url footer_text : option string) : props :=
  let interactive :=
    [ ("type", JStr "button");
      ("body", JObj [("text", JStr body_text)]);
      ("action",
       JObj [("buttons",
              JArr (map (fun b =>
                           JObj [ ("id", JStr (fst b));
                                  ("type", JStr "reply");
                                  ("title", JStr (snd b)) ])
                        buttons))]) ] in
  let interactive :=
    if truthy (optstr header_text)
    then prop_set "header"
           (JObj [("type", JStr "text"); ("text", optstr header_text)])
           interactive
    else if truthy (optstr header_image_url)
    then prop_set "header"
           (JObj [ ("type", JStr "image");
                   ("image", JObj [("url", optstr header_image_url)]) ])
           interactive
    else interactive in
  set_if (truthy (optstr footer_text)) "footer"
         (JObj [("text", optstr footer_text)]) interactive.

Definition send_interactive_buttons_body
  (to from body_text : string) (buttons : list (string * string))
  (header_text header_image_url footer_text : option string) : jsval :=
  JObj [ ("to", JStr to);
         ("from", JStr from);
         ("type", JStr "interactive");
         ("content",
          JObj [("interactive",
                 JObj (send_interactive_buttons_interactive body_text buttons
                         header_text header_image_url footer_text))]) ].

(** [sections] is the validated array, passed on as it is. *)
Definition send_interactive_list_body
  (to from body_text button_label : string) (sections : jsval)
  (header_text footer_text : option string) : jsval :=
  let interactive :=
    [ ("type", JStr "list");
      ("body", JObj [("text", JStr body_text)]);
      ("action",
       JObj [("button", JStr button_label); ("sections", sections)]) ] in
  let interactive :=
    set_if (truthy (optstr header_text)) "header"
           (JObj [("type", JStr "text"); ("text", optstr header_text)])
           interactive in
  let interactive :=
    set_if (truthy (optstr footer_text)) "footer"
           (JObj [("text", optstr footer_text)]) interactive in
  JObj [ ("to", JStr to);
         ("from", JStr from);
         ("type", JStr "interactive");
         ("content", JObj [("interactive", JObj interactive)]) ].

Section Handlers.
Variable P : Platform.

Definition send_text
  (to from text : string) (disable_url_preview : option bool)
  (report_url : option string) : M ToolResult :=
  try_catch
    (let body := send_text_body to from text disable_url_preview report_url in
     data <- apiRequest P "/send" POST (Some body) None conversations ;;
     ret (toolResult P data))
    (fun error =>
       ret (toolError ("Failed to send text message: " ++ message error))).

Definition send_media
  (to from media_type media_url : string) (caption : option string)
  : M ToolResult :=
  try_catch
    (data <- apiRequest P "/send" POST
               (Some (send_media_body to from media_type media_url caption))
               None conversations ;;
     ret (toolResult P data))
    (fun error =>
       ret (toolError ("Failed to send media message: " ++ message error))).

Definition send_location
  (to from : string) (latitude longitude : number)
  (name address : option string) : M ToolResult :=
  try_catch
    (data <- apiRequest P "/send" POST
               (Some (send_location_body to from latitude longitude
                        name address))
               None conversations ;;
     ret (toolResult P data))
    (fun error =>
       ret (toolError ("Failed to send location: " ++ message error))).

Definition send_template
  (to from namespace template_name language_code : string)
  (parameters : option (list string))
  (header_image_url header_video_url header_document_url
   button_url_suffix : option string) : M ToolResult :=
  try_catch
    (data <- apiRequest P "/send" POST
               (Some (send_template_body to from namespace template_name
                        language_code parameters header_image_url
                        header_video_url header_document_url
                        button_url_suffix))
               None conversations ;;
     ret (toolResult P data))
    (fun error =>
       ret (toolError
              ("Failed to send template message: " ++ message error))).

Definition send_interactive_buttons
  (to from body_text : string) (buttons : list (string * string))
  (header_text header_image_url footer_text : option string)
  : M ToolResult :=
  try_catch
    (data <- apiRequest P "/send" POST
               (Some (send_interactive_buttons_body to from body_text buttons
                        header_text header_image_url footer_text))
               None conversations ;;
     ret (toolResult P data))
    (fun error =>
       ret (toolError
              ("Failed to send interactive buttons: " ++ message error))).

Definition send_interactive_list
  (to from body_text button_label : string) (sections : jsval)
  (header_text footer_text : option string) : M ToolResult :=
  try_catch
    (data <- apiRequest P "/send" POST
               (Some (send_interactive_list_body to from body_text
                        button_label sections header_text footer_text))
               None conversations ;;
     ret (toolResult P data))
    (fun error =>
       ret (toolError
              ("Failed to send interactive list: " ++ message error))).

End Handlers.

End Messaging.

(** ** Conversation tools: [src/tools/conversations.ts] *)

Module Conversations.
Import JS Client.

(** The [switch (type)] of [reply_to_conversation]: the content it builds,
    or [None] where the [default] branch returns the error result. *)
Definition reply_content
  (type : string) (text media_url caption : option string)
  (latitude longitude : option number) : option jsval :=
  if type =? "text" then
    Some (JObj [("text", or_else (optstr text) (JStr ""))])
  else if (type =? "image") || (type =? "video")
          || (type =? "audio") || (type =? "file") then
    let media := [("url", optstr media_url)] in
    let media :=
      set_if (truthy (optstr caption) && negb (type =? "audio"))
             "caption" (optstr caption) media in
    Some (JObj [(type, JObj media)])
  else if type =? "location" then
    Some (JObj [("location",
                 JObj [ ("latitude", optnum latitude);
                        ("longitude", optnum longitude) ])])
  else None.

Definition reply_body
  (type : string) (content : jsval) (channel_id : option string) : jsval :=
  let body := [("type", JStr type); ("content", content)] in
  JObj (set_if (truthy (optstr channel_id)) "channelId" (optstr channel_id)
               body).

Section Handlers.
Variable P : Platform.

Definition list_conversations (offset limit : option string) : M ToolResult :=
  try_catch
    (data <- apiRequest P "/conversations" GET None
               (Some [("offset", offset); ("limit", limit)]) conversations ;;
     ret (toolResult P data))
    (fun error =>
       ret (toolError ("Failed to list conversations: " ++ message error))).

Definition get_conversation (conversation_id : string) : M ToolResult :=
  try_catch
    (data <- apiRequest P ("/conversations/" ++ conversation_id) GET None None
               conversations ;;
     ret (toolResult P data))
    (fun error =>
       ret (toolError ("Failed to get conversation: " ++ message error))).

Definition update_conversation (conversation_id status : string)
  : M ToolResult :=
  try_catch
    (data <- apiRequest P ("/conversations/" ++ conversation_id) PATCH
               (Some (JObj [("status", JStr status)])) None conversations ;;
     ret (toolResult P data))
    (fun error =>
       ret (toolError ("Failed to update conversation: " ++ message error))).

Definition list_conversation_messages
  (conversation_id : string) (offset limit : option string) : M ToolResult :=
  try_catch
    (data <- apiRequest P ("/conversations/" ++ conversation_id ++ "/messages")
               GET None (Some [("offset", offset); ("limit", limit)])
               conversations ;;
     ret (toolResult P data))
    (fun error =>
       ret (toolError ("Failed to list messages: " ++ message error))).

Definition get_message (conversation_id message_id : string) : M ToolResult :=
  try_catch
    (data <- apiRequest P
               ("/conversations/" ++ conversation_id ++ "/messages/"
                ++ message_id)
               GET None None conversations ;;
     ret (toolResult P data))
    (fun error =>
       ret (toolError ("Failed to get message: " ++ message error))).

Definition reply_to_conversation
  (conversation_id type : string) (text media_url caption : option string)
  (latitude longitude : option number) (channel_id : option string)
  : M ToolResult :=
  try_catch
    (match reply_content type text media_url caption latitude longitude with
     | None => ret (toolError ("Unsupported message type: " ++ type))
     | Some content =>
         let body := reply_body type content channel_id in
         data <- apiRequest P
                   ("/conversations/" ++ conversation_id ++ "/messages")
                   POST (Some body) None conversations ;;
         ret (toolResult P data)
     end)
    (fun error =>
       ret (toolError
              ("Failed to reply to conversation: " ++ message error))).

Definition list_messages (offset limit : option string) : M ToolResult :=
  try_catch
    (data <- apiRequest P "/messages" GET None
               (Some [("offset", offset); ("limit", limit)]) conversations ;;
     ret (toolResult P data))
    (fun error =>
       ret (toolError ("Failed to list messages: " ++ message error))).

End Handlers.

End Conversations.

(** ** Template tools: [build/tools/templates.js] *)

Module Templates.
Import JS Client.

(** [x === s] for an optional string [x]. *)
Definition is_string (x : option string) (s : string) : bool :=
  match x with Some y => y =? s | None => false end.

(** The [components] array of [create_template]. *)
Definition create_template_components
  (body_text : string)
  (header_type header_text header_example_url footer_text
   button_type button_text button_value : option string)
  (body_examples : option (list string)) : list jsval :=
  let components : list jsval := [] in
  (* Header *)
  let components :=
    if truthy (optstr header_type) then
      let header := [("type", JStr "HEADER"); ("format", optstr header_type)] in
      let header :=
        if is_string header_type "TEXT" && truthy (optstr header_text)
        then prop_set "text" (optstr header_text) header
        else if truthy (optstr header_example_url)
        then prop_set "example"
               (JObj [("header_url", JArr [optstr header_example_url])])
               header
        else header in
      app components [JObj header]
    else components in
  (* Body (required) *)
  let body := [("type", JStr "BODY"); ("text", JStr body_text)] in
  let body :=
    set_if (non_empty body_examples) "example"
           (JObj [("body_text",
                   JArr [JArr (map JStr (elements_of body_examples))])])
           body in
  let components := app components [JObj body] in
  (* Footer *)
  let components :=
    if truthy (optstr footer_text)
    then app components
           [JObj [("type", JStr "FOOTER"); ("text", optstr footer_text)]]
    else components in
  (* Buttons *)
  if truthy (optstr button_type) && truthy (optstr button_text) then
    let button := [("type", optstr button_type); ("text", optstr button_text)] in
    let button :=
      if is_string button_type "PHONE_NUMBER" && truthy (optstr button_value)
      then prop_set "phone_number" (optstr button_value) button
      else if is_string button_type "URL" && truthy (optstr button_value)
      then
        let button := prop_set "url" (optstr button_value) button in
        match button_value with
        | Some value =>
            if includes value "{{"
            then prop_set "example"
                   (JArr [JStr (replace_placeholders value "example_value")])
                   button
            else button
        | None => button
        end
      else button in
    app components
      [JObj [("type", JStr "BUTTONS"); ("buttons", JArr [JObj button])]]
  else components.

Definition create_template_body
  (name language category body_text : string)
  (header_type header_text header_example_url footer_text
   button_type button_text button_value : option string)
  (body_examples : option (list string)) (waba_id : option string)
  (allow_category_change : option bool) : jsval :=
  let components :=
    create_template_components body_text header_type header_text
      header_example_url footer_text button_type button_text button_value
      body_examples in
  let requestBody :=
    [ ("name", JStr name);
      ("language", JStr language);
      ("category", JStr category);
      ("components", JArr components) ] in
  let requestBody :=
    set_if (truthy (optstr waba_id)) "wabaId" (optstr waba_id) requestBody in
  let requestBody :=
    match allow_category_change with
    | Some b => prop_set "allowCategoryChange" (JBool b) requestBody
    | None => requestBody
    end in
  JObj requestBody.

Definition update_template_body
  (waba_id : string) (parsedComponents : jsval) (category : option string)
  : jsval :=
  let body :=
    [("wabaId", JStr waba_id); ("components", parsedComponents)] in
  JObj (set_if (truthy (optstr category)) "category" (optstr category) body).

Section Handlers.
Variable P : Platform.

Definition list_templates (offset limit waba_id channel_id : option string)
  : M ToolResult :=
  try_catch
    (data <- apiRequest P "/v3/platforms/whatsapp/templates" GET None
               (Some [ ("offset", offset);
                       ("limit", limit);
                       ("wabaId", waba_id);
                       ("channelId", channel_id) ])
               integrations ;;
     ret (toolResult P data))
    (fun error =>
       ret (toolError ("Failed to list templates: " ++ message error))).

Definition get_template (name language : string) : M ToolResult :=
  try_catch
    (data <- apiRequest P
               ("/v3/platforms/whatsapp/templates/" ++ name ++ "/" ++ language)
               GET None None integrations ;;
     ret (toolResult P data))
    (fun error =>
       ret (toolError ("Failed to get template: " ++ message error))).

Definition create_template
  (name language category body_text : string)
  (header_type header_text header_example_url footer_text
   button_type button_text button_value : option string)
  (body_examples : option (list string)) (waba_id : option string)
  (allow_category_change : option bool) : M ToolResult :=
  try_catch
    (let requestBody :=
       create_template_body name language category body_text header_type
         header_text header_example_url footer_text button_type button_text
         button_value body_examples waba_id allow_category_change in
     data <- apiRequest P "/v2/platforms/whatsapp/templates" POST
               (Some requestBody) None integrations ;;
     ret (toolResult P data))
    (fun error =>
       ret (toolError ("Failed to create template: " ++ message error))).

Definition update_template
  (name language waba_id components : string) (category : option string)
  : M ToolResult :=
  try_catch
    (match JSON_parse P components with
     | Throw _ => ret (toolError "Invalid JSON in components parameter")
     | Normal parsedComponents =>
         let body := update_template_body waba_id parsedComponents category in
         data <- apiRequest P
                   ("/v2/platforms/whatsapp/templates/" ++ name ++ "/"
                    ++ language)
                   PUT (Some body) None integrations ;;
         ret (toolResult P data)
     end)
    (fun error =>
       ret (toolError ("Failed to update template: " ++ message error))).

Definition delete_template (name : string) : M ToolResult :=
  try_catch
    (_ <- apiRequest P ("/v3/platforms/whatsapp/templates/" ++ name) DELETE
            None None integrations ;;
     ret (toolResult P
            (JObj [("deleted", JBool true); ("name", JStr name)])))
    (fun error =>
       ret (toolError ("Failed to delete template: " ++ message error))).

Definition delete_template_variant (name language : string) : M ToolResult :=
  try_catch
    (_ <- apiRequest P
            ("/v3/platforms/whatsapp/templates/" ++ name ++ "/" ++ language)
            DELETE None None integrations ;;
     ret (toolResult P
            (JObj [ ("deleted", JBool true);
                    ("name", JStr name);
                    ("language", JStr language) ])))
    (fun error =>
       ret (toolError
              ("Failed to delete template variant: " ++ message error))).

End Handlers.

End Templates.

(** ** Contact tools: [src/tools/contacts.ts] *)

Module Contacts.
Import JS Client.

(** The [params] object of [get_contact], as its entries. *)
Definition get_contact_params (msisdn name : option string) : QueryParams :=
  let params : QueryParams := [] in
  let params :=
    if truthy (optstr msisdn) then app params [("msisdn", msisdn)]
    else params in
  if truthy (optstr name) then app params [("name", name)] else params.

Definition create_contact_body
  (msisdn : string)
  (first_name last_name custom1 custom2 custom3 custom4 : option string)
  : jsval :=
  let body := [("msisdn", JStr msisdn)] in
  let body :=
    set_if (truthy (optstr first_name)) "firstName" (optstr first_name) body in
  let body :=
    set_if (truthy (optstr last_name)) "lastName" (optstr last_name) body in
  let body := set_if (truthy (optstr custom1)) "custom1" (optstr custom1) body in
  let body := set_if (truthy (optstr custom2)) "custom2" (optstr custom2) body in
  let body := set_if (truthy (optstr custom3)) "custom3" (optstr custom3) body in
  let body := set_if (truthy (optstr custom4)) "custom4" (optstr custom4) body in
  JObj body.

Definition update_contact_body
  (msisdn first_name last_name custom1 custom2 custom3 custom4
   : option string) : jsval :=
  let body : props := [] in
  let body := set_if (truthy (optstr msisdn)) "msisdn" (optstr msisdn) body in
  let body :=
    set_if (truthy (optstr first_name)) "firstName" (optstr first_name) body in
  let body :=
    set_if (truthy (optstr last_name)) "lastName" (optstr last_name) body in
  let body := set_if (truthy (optstr custom1)) "custom1" (optstr custom1) body in
  let body := set_if (truthy (optstr custom2)) "custom2" (optstr custom2) body in
  let body := set_if (truthy (optstr custom3)) "custom3" (optstr custom3) body in
  let body := set_if (truthy (optstr custom4)) "custom4" (optstr custom4) body in
  JObj body.

Section Handlers.
Variable P : Platform.

Definition list_contacts (offset limit : option string) : M ToolResult :=
  try_catch
    (data <- apiRequest P "/contacts" GET None
               (Some [("offset", offset); ("limit", limit)]) rest ;;
     ret (toolResult P data))
    (fun error =>
       ret (toolError ("Failed to list contacts: " ++ message error))).

Definition get_contact (contact_id msisdn name : option string)
  : M ToolResult :=
  try_catch
    (if truthy (optstr contact_id) then
       data <- apiRequest P ("/contacts/" ++ interpolate_optstr contact_id)
                 GET None None rest ;;
       ret (toolResult P data)
     else
       let params := get_contact_params msisdn name in
       data <- apiRequest P "/contacts" GET None (Some params) rest ;;
       ret (toolResult P data))
    (fun error =>
       ret (toolError ("Failed to get contact: " ++ message error))).

Definition create_contact
  (msisdn : string)
  (first_name last_name custom1 custom2 custom3 custom4 : option string)
  : M ToolResult :=
  try_catch
    (let body :=
       create_contact_body msisdn first_name last_name custom1 custom2
         custom3 custom4 in
     data <- apiRequest P "/contacts" POST (Some body) None rest ;;
     ret (toolResult P data))
    (fun error =>
       ret (toolError ("Failed to create contact: " ++ message error))).

Definition update_contact
  (contact_id : string)
  (msisdn first_name last_name custom1 custom2 custom3 custom4
   : option string) : M ToolResult :=
  try_catch
    (let body :=
       update_contact_body msisdn first_name last_name custom1 custom2
         custom3 custom4 in
     data <- apiRequest P ("/contacts/" ++ contact_id) PATCH (Some body) None
               rest ;;
     ret (toolResult P data))
    (fun error =>
       ret (toolError ("Failed to update contact: " ++ message error))).

Definition delete_contact (contact_id : string) : M ToolResult :=
  try_catch
    (_ <- apiRequest P ("/contacts/" ++ contact_id) DELETE None None rest ;;
     ret (toolResult P
            (JObj [("deleted", JBool true); ("id", JStr contact_id)])))
    (fun error =>
       ret (toolError ("Failed to delete contact: " ++ message error))).

End Handlers.

End Contacts.

(** ** The server: the registered tools and their invocation

    The entry point registers the four families of tools; the host then
    invokes one by name with validated arguments.  A [ToolCall] is such an
    invocation. *)

Module Server.
Import JS Client.

Inductive ToolCall : Type :=
| call_send_text
    (to from text : string) (disable_url_preview : option bool)
    (report_url : option string)
| call_send_media
    (to from media_type media_url : string) (caption : option string)
| call_send_location
    (to from : string) (latitude longitude : number)
    (name address : option string)
| call_send_template
    (to from namespace template_name language_code : string)
    (parameters : option (list string))
    (header_image_url header_video_url header_document_url
     button_url_suffix : option string)
| call_send_interactive_buttons
    (to from body_text : string) (buttons : list (string * string))
    (header_text header_image_url footer_text : option string)
| call_send_interactive_list
    (to from body_text button_label : string) (sections : jsval)
    (header_text footer_text : option string)
| call_list_conversations (offset limit : option string)
| call_get_conversation (conversation_id : string)
| call_update_conversation (conversation_id status : string)
| call_list_conversation_messages
    (conversation_id : string) (offset limit : option string)
| call_get_message (conversation_id message_id : string)
| call_reply_to_conversation
    (conversation_id type : string) (text media_url caption : option string)
    (latitude longitude : option number) (channel_id : option string)
| call_list_messages (offset limit : option string)
| call_list_templates (offset limit waba_id channel_id : option string)
| call_get_template (name language : string)
| call_create_template
    (name language category body_text : string)
    (header_type header_text header_example_url footer_text
     button_type button_text button_value : option string)
    (body_examples : option (list string)) (waba_id : option string)
    (allow_category_change : option bool)
| call_update_template
    (name language waba_id components : string) (category : option string)
| call_delete_template (name : string)
| call_delete_template_variant (name language : string)
| call_list_contacts (offset limit : option string)
| call_get_contact (contact_id msisdn name : option string)
| call_create_contact
    (msisdn : string)
    (first_name last_name custom1 custom2 custom3 custom4 : option string)
| call_update_contact
    (contact_id : string)
    (msisdn first_name last_name custom1 custom2 custom3 custom4
     : option string)
| call_delete_contact (contact_id : string).

(** The registered name of the tool a call invokes. *)
Definition tool_name (c : ToolCall) : string :=
  match c with
  | call_send_text _ _ _ _ _ => "send_text"
  | call_send_media _ _ _ _ _ => "send_media"
  | call_send_location _ _ _ _ _ _ => "send_location"
  | call_send_template _ _ _ _ _ _ _ _ _ _ => "send_template"
  | call_send_interactive_buttons _ _ _ _ _ _ _ => "send_interactive_buttons"
  | call_send_interactive_list _ _ _ _ _ _ _ => "send_interactive_list"
  | call_list_conversations _ _ => "list_conversations"
  | call_get_conversation _ => "get_conversation"
  | call_update_conversation _ _ => "update_conversation"
  | call_list_conversation_messages _ _ _ => "list_conversation_messages"
  | call_get_message _ _ => "get_message"
  | call_reply_to_conversation _ _ _ _ _ _ _ _ => "reply_to_conversation"
  | call_list_messages _ _ => "list_messages"
  | call_list_templates _ _ _ _ => "list_templates"
  | call_get_template _ _ => "get_template"
  | call_create_template _ _ _ _ _ _ _ _ _ _ _ _ _ _ => "create_template"
  | call_update_template _ _ _ _ _ => "update_template"
  | call_delete_template _ => "delete_template"
  | call_delete_template_variant _ _ => "delete_template_variant"
  | call_list_contacts _ _ => "list_contacts"
  | call_get_contact _ _ _ => "get_contact"
  | call_create_contact _ _ _ _ _ _ _ => "create_contact"
  | call_update_contact _ _ _ _ _ _ _ _ => "update_contact"
  | call_delete_contact _ => "delete_contact"
  end.

(** Running the handler registered under the name. *)
Definition invoke (P : Platform) (c : ToolCall) : M ToolResult :=
  match c with
  | call_send_text to from text disable_url_preview report_url =>
      Messaging.send_text P to from text disable_url_preview report_url
  | call_send_media to from media_type media_url caption =>
      Messaging.send_media P to from media_type media_url caption
  | call_send_location to from latitude longitude name address =>
      Messaging.send_location P to from latitude longitude name address
  | call_send_template to from namespace template_name language_code
      parameters header_image_url header_video_url header_document_url
      button_url_suffix =>
      Messaging.send_template P to from namespace template_name language_code
        parameters header_image_url header_video_url header_document_url
        button_url_suffix
  | call_send_interactive_buttons to from body_text buttons header_text
      header_image_url footer_text =>
      Messaging.send_interactive_buttons P to from body_text buttons
        header_text header_image_url footer_text
  | call_send_interactive_list to from body_text button_label sections
      header_text footer_text =>
      Messaging.send_interactive_list P to from body_text button_label
        sections header_text footer_text
  | call_list_conversations offset limit =>
      Conversations.list_conversations P offset limit
  | call_get_conversation conversation_id =>
      Conversations.get_conversation P conversation_id
  | call_update_conversation conversation_id status =>
      Conversations.update_conversation P conversation_id status
  | call_list_conversation_messages conversation_id offset limit =>
      Conversations.list_conversation_messages P conversation_id offset limit
  | call_get_message conversation_id message_id =>
      Conversations.get_message P conversation_id message_id
  | call_reply_to_conversation conversation_id type text media_url caption
      latitude longitude channel_id =>
      Conversations.reply_to_conversation P conversation_id type text
        media_url caption latitude longitude channel_id
  | call_list_messages offset limit =>
      Conversations.list_messages P offset limit
  | call_list_templates offset limit waba_id channel_id =>
      Templates.list_templates P offset limit waba_id channel_id
  | call_get_template name language => Templates.get_template P name language
  | call_create_template name language category body_text header_type
      header_text header_example_url footer_text button_type button_text
      button_value body_examples waba_id allow_category_change =>
      Templates.create_template P name language category body_text
        header_type header_text header_example_url footer_text button_type
        button_text button_value body_examples waba_id allow_category_change
  | call_update_template name language waba_id components category =>
      Templates.update_template P name language waba_id components category
  | call_delete_template name => Templates.delete_template P name
  | call_delete_template_variant name language =>
      Templates.delete_template_variant P name language
  | call_list_contacts offset limit => Contacts.list_contacts P offset limit
  | call_get_contact contact_id msisdn name =>
      Contacts.get_contact P contact_id msisdn name
  | call_create_contact msisdn first_name last_name custom1 custom2 custom3
      custom4 =>
      Contacts.create_contact P msisdn first_name last_name custom1 custom2
        custom3 custom4
  | call_update_contact contact_id msisdn first_name last_name custom1
      custom2 custom3 custom4 =>
      Contacts.update_contact P contact_id msisdn first_name last_name custom1
        custom2 custom3 custom4
  | call_delete_contact contact_id => Contacts.delete_contact P contact_id
  end.

(** The static description that opens the message of a handler's [catch]
    block. *)
Definition failure_description (c : ToolCall) : string :=
  match c with
  | call_send_text _ _ _ _ _ => "Failed to send text message: "
  | call_send_media _ _ _ _ _ => "Failed to send media message: "
  | call_send_location _ _ _ _ _ _ => "Failed to send location: "
  | call_send_template _ _ _ _ _ _ _ _ _ _ =>
      "Failed to send template message: "
  | call_send_interactive_buttons _ _ _ _ _ _ _ =>
      "Failed to send interactive buttons: "
  | call_send_interactive_list _ _ _ _ _ _ _ =>
      "Failed to send interactive list: "
  | call_list_conversations _ _ => "Failed to list conversations: "
  | call_get_conversation _ => "Failed to get conversation: "
  | call_update_conversation _ _ => "Failed to update conversation: "
  | call_list_conversation_messages _ _ _ => "Failed to list messages: "
  | call_get_message _ _ => "Failed to get message: "
  | call_reply_to_conversation _ _ _ _ _ _ _ _ =>
      "Failed to reply to conversation: "
  | call_list_messages _ _ => "Failed to list messages: "
  | call_list_templates _ _ _ _ => "Failed to list templates: "
  | call_get_template _ _ => "Failed to get template: "
  | call_create_template _ _ _ _ _ _ _ _ _ _ _ _ _ _ =>
      "Failed to create template: "
  | call_update_template _ _ _ _ _ => "Failed to update template: "
  | call_delete_template _ => "Failed to delete template: "
  | call_delete_template_variant _ _ => "Failed to delete template variant: "
  | call_list_contacts _ _ => "Failed to list contacts: "
  | call_get_contact _ _ _ => "Failed to get contact: "
  | call_create_contact _ _ _ _ _ _ _ => "Failed to create contact: "
  | call_update_contact _ _ _ _ _ _ _ _ => "Failed to update contact: "
  | call_delete_contact _ => "Failed to delete contact: "
  end.

(** The six values the schema of [reply_to_conversation] allows for
    [type]. *)
Definition REPLY_TYPES : list string :=
  ["text"; "image"; "video"; "audio"; "file"; "location"].

(** The [readOnlyHint] annotation a tool is registered with. *)
Definition readOnlyHint (c : ToolCall) : bool :=
  match c with
  | call_list_conversations _ _
  | call_get_conversation _
  | call_list_conversation_messages _ _ _
  | call_get_message _ _
  | call_list_messages _ _
  | call_list_templates _ _ _ _
  | call_get_template _ _
  | call_list_contacts _ _
  | call_get_contact _ _ _ => true
  | _ => false
  end.

(** The [destructiveHint] annotation a tool is registered with. *)
Definition destructiveHint (c : ToolCall) : bool :=
  match c with
  | call_delete_template _
  | call_delete_template_variant _ _
  | call_delete_contact _ => true
  | _ => false
  end.

End Server.

(** ** What the specification speaks of

    Definitions that follow the specification's words, to be compared with
    the program's, and the sample platform of the worked examples. *)

Module Spec.
Import JS Client.

(** [errors[0].description], read off the shape of a parsed error body:
    the description of the first entry of its [errors]. *)
Definition errors0_description (body : jsval) : jsval :=
  match body with
  | JObj o =>
      match prop_get "errors" o with
      | JArr (JObj first :: _) => prop_get "description" first
      | JObj entries =>
          match prop_get "0" entries with
          | JObj first => prop_get "description" first
          | _ => JUndefined
          end
      | _ => JUndefined
      end
  | _ => JUndefined
  end.

(** The body the error branch works on: the parsed JSON, or the empty
    object that stands in for a body that does not parse. *)
Definition error_body (response : Response) : jsval :=
  match json response with
  | Normal v => v
  | Throw _ => JObj []
  end.

(** The query entries that are to reach the URL: those with a value that is
    neither [undefined] nor empty. *)
Definition surviving (entries : QueryParams) : list (string * string) :=
  flat_map
    (fun entry =>
       match entry with
       | (key, Some value) => if value =? "" then [] else [(key, value)]
       | (_, None) => []
       end)
    entries.

Definition hex_value (c : ascii) : option nat :=
  let n := nat_of_ascii c in
  if ((48 <=? n) && (n <=? 57))%nat then Some (n - 48)
  else if ((65 <=? n) && (n <=? 70))%nat then Some (n - 55)
  else None.

(** Reading a form-urlencoded component back: [+] is a space, [%XY] the
    byte with that hexadecimal code. *)
Fixpoint urldecode (s : string) : string :=
  match s with
  | "" => ""
  | String "+" tl => String " " (urldecode tl)
  | String "%" (String h (String l tl) as tl1) =>
      match hex_value h, hex_value l with
      | Some a, Some b => String (ascii_of_nat (16 * a + b)) (urldecode tl)
      | _, _ => String "%" (urldecode tl1)
      end
  | String c tl => String c (urldecode tl)
  end.

Fixpoint all_digits (s : string) : bool :=
  match s with
  | "" => true
  | String c tl => is_digit c && all_digits tl
  end.

(** A placeholder token: two opening braces, one or more decimal digits,
    two closing braces. *)
Definition placeholder (t : string) : Prop :=
  exists digits,
    digits <> "" /\ all_digits digits = true /\ t = "{{" ++ digits ++ "}}".

(** [s] contains a placeholder. *)
Definition has_placeholder (s : string) : Prop :=
  exists before token after,
    placeholder token /\ s = before ++ token ++ after.

(** [Substituted by_ s out]: [out] is [s] with every placeholder, met
    from the left, replaced by [by_] and every other character kept. *)
Inductive Substituted (by_ : string) : string -> string -> Prop :=
| Substituted_end : Substituted by_ "" ""
| Substituted_token token more out :
    placeholder token ->
    Substituted by_ more out ->
    Substituted by_ (token ++ more) (by_ ++ out)
| Substituted_char c more out :
    (forall token after, placeholder token -> String c more <> token ++ after) ->
    Substituted by_ more out ->
    Substituted by_ (String c more) (String c out).

(** The boundary every handler has: a call, its result wrapped, and a
    [catch] that turns whatever was thrown into an error result whose
    message opens with the description of the operation. *)
Definition guarded (call : M jsval) (wrap : jsval -> ToolResult)
  (description : string) : M ToolResult :=
  try_catch (data <- call ;; ret (wrap data))
    (fun error => ret (toolError (description ++ message error))).

(** The component blocks of a template message, as the provider's wire
    format has them. *)
Definition header_block (kind url : string) : jsval :=
  JObj [ ("type", JStr "header");
         ("parameters",
          JArr [ JObj [("type", JStr kind); (kind, JObj [("url", JStr url)])] ]) ].

Definition body_block (parameters : list string) : jsval :=
  JObj [ ("type", JStr "body");
         ("parameters",
          JArr (map (fun p => JObj [("type", JStr "text"); ("text", JStr p)])
                    parameters)) ].

Definition button_block (suffix : string) : jsval :=
  JObj [ ("type", JStr "button");
         ("sub_type", JStr "url");
         ("parameters",
          JArr [ JObj [("type", JStr "text"); ("text", JStr suffix)] ]) ].

(** The calls a handler answers from its input alone, before any request:
    an update of a template whose components text does not parse, and a
    reply of a type the switch does not know. *)
Definition answered_from_input (P : Platform) (c : Server.ToolCall) : Prop :=
  match c with
  | Server.call_update_template _ _ _ components _ =>
      exists e, JSON_parse P components = Throw e
  | Server.call_reply_to_conversation _ type _ _ _ _ _ _ =>
      ~ In type Server.REPLY_TYPES
  | _ => False
  end.

(** The service each family of tools talks to: the conversations service
    for the messaging and conversation tools, the integrations service for
    the template tools, the REST service for the contact tools. *)
Definition service (c : Server.ToolCall) : ApiTarget :=
  match c with
  | Server.call_list_templates _ _ _ _
  | Server.call_get_template _ _
  | Server.call_create_template _ _ _ _ _ _ _ _ _ _ _ _ _ _
  | Server.call_update_template _ _ _ _ _
  | Server.call_delete_template _
  | Server.call_delete_template_variant _ _ => integrations
  | Server.call_list_contacts _ _
  | Server.call_get_contact _ _ _
  | Server.call_create_contact _ _ _ _ _ _ _
  | Server.call_update_contact _ _ _ _ _ _ _ _
  | Server.call_delete_contact _ => rest
  | _ => conversations
  end.

(** What a delete tool reports on success, whatever the service sent
    back; [None] for the tools that pass the response on. *)
Definition deletion_report (c : Server.ToolCall) : option jsval :=
  match c with
  | Server.call_delete_template name =>
      Some (JObj [("deleted", JBool true); ("name", JStr name)])
  | Server.call_delete_template_variant name language =>
      Some (JObj [ ("deleted", JBool true);
                   ("name", JStr name);
                   ("language", JStr language) ])
  | Server.call_delete_contact contact_id =>
      Some (JObj [("deleted", JBool true); ("id", JStr contact_id)])
  | _ => None
  end.

(** Is there a placeholder somewhere in [s]?  The matcher, tried at every
    position. *)
Fixpoint placeholder_anywhere (s : string) : bool :=
  match match_placeholder s with
  | Some _ => true
  | None =>
      match s with
      | "" => false
      | String _ tl => placeholder_anywhere tl
      end
  end.

(** [c] does not occur in [s]. *)
Fixpoint free_of (c : ascii) (s : string) : bool :=
  match s with
  | "" => true
  | String x tl => negb (Ascii.eqb x c) && free_of c tl
  end.

(** Reading a query string back: the pairs between the [&], each split at
    its first [=], key and value decoded. *)
Fixpoint split_at (sep : ascii) (s : string) : string * option string :=
  match s with
  | "" => ("", None)
  | String c tl =>
      if Ascii.eqb c sep then ("", Some tl)
      else let (head, more) := split_at sep tl in (String c head, more)
  end.

Fixpoint split_all (fuel : nat) (sep : ascii) (s : string) : list string :=
  match fuel with
  | 0 => [s]
  | S fuel' =>
      match split_at sep s with
      | (head, None) => [head]
      | (head, Some more) => head :: split_all fuel' sep more
      end
  end.

Definition parse_pair (s : string) : string * string :=
  match split_at "=" s with
  | (key, Some value) => (urldecode key, urldecode value)
  | (key, None) => (urldecode key, "")
  end.

Definition parse_query (qs : string) : list (string * string) :=
  if qs =? "" then []
  else map parse_pair (split_all (String.length qs) "&" qs).

End Spec.

(** ** A sample platform for the worked examples *)

Module Samples.
Import JS Client.

Definition double_quote : string := String (ascii_of_nat 34) "".
Definition backslash : string := String (ascii_of_nat 92) "".
Definition newline : string := String (ascii_of_nat 10) "".

(** [QuoteJSONString], on the bytes of a well-formed string. *)
Definition quote_char (c : ascii) : string :=
  let n := nat_of_ascii c in
  if (n =? 34)%nat then backslash ++ double_quote
  else if (n =? 92)%nat then backslash ++ backslash
  else if (n =? 8)%nat then backslash ++ "b"
  else if (n =? 9)%nat then backslash ++ "t"
  else if (n =? 10)%nat then backslash ++ "n"
  else if (n =? 12)%nat then backslash ++ "f"
  else if (n =? 13)%nat then backslash ++ "r"
  else if (n <? 32)%nat
  then backslash ++ "u00"
       ++ String (hex_digit (n / 16)%nat) (String (hex_digit (n mod 16)%nat) "")
  else String c "".

Fixpoint quote_chars (s : string) : string :=
  match s with
  | "" => ""
  | String c tl => quote_char c ++ quote_chars tl
  end.

Definition quote (s : string) : string :=
  double_quote ++ quote_chars s ++ double_quote.

(** An opening bracket, the parts and a closing bracket: on one line
    without a gap, a part per line with one. *)
Definition wrap (opening closing gap indent inner : string)
  (parts : list string) : string :=
  match parts with
  | [] => opening ++ closing
  | _ :: _ =>
      if gap =? ""
      then opening ++ join_with "," parts ++ closing
      else opening ++ newline ++ inner
           ++ join_with ("," ++ newline ++ inner) parts
           ++ newline ++ indent ++ closing
  end.

(** [SerializeJSONProperty]: [None] is [undefined].  Members with an
    [undefined] value are dropped, [undefined] elements print as [null],
    and so do the numbers that are not finite. *)
Fixpoint serialize (gap indent : string) (v : jsval) : option string :=
  match v with
  | JUndefined => None
  | JNull => Some "null"
  | JBool true => Some "true"
  | JBool false => Some "false"
  | JNum n =>
      if (n =? "NaN") || (n =? "Infinity") || (n =? "-Infinity")
      then Some "null" else Some n
  | JStr s => Some (quote s)
  | JArr xs =>
      let inner := indent ++ gap in
      let parts :=
        (fix each (l : list jsval) : list string :=
           match l with
           | [] => []
           | x :: r =>
               match serialize gap inner x with
               | Some t => t :: each r
               | None => "null" :: each r
               end
           end) xs in
      Some (wrap "[" "]" gap indent inner parts)
  | JObj o =>
      let inner := indent ++ gap in
      let colon := if gap =? "" then ":" else ": " in
      let parts :=
        (fix each (l : props) : list string :=
           match l with
           | [] => []
           | (k, x) :: r =>
               match serialize gap inner x with
               | Some t => (quote k ++ colon ++ t) :: each r
               | None => each r
               end
           end) o in
      Some (wrap "{" "}" gap indent inner parts)
  end.

Fixpoint spaces (n : nat) : string :=
  match n with 0 => "" | S m => String " " (spaces m) end.

Definition stringify (v : jsval) (n : nat) : string :=
  match serialize (spaces n) "" v with
  | Some s => s
  | None => "undefined"
  end.

Definition SyntaxError (msg : string) : JsError :=
  {| error_name := "SyntaxError"; message := msg; error_status := None |}.

(** [JSON.parse] on the texts the examples hand to it, the empty array and
    the empty object; every other text of the examples is malformed. *)
Definition parse (text : string) : Completion jsval :=
  if text =? "[]" then Normal (JArr [])
  else if text =? "{}" then Normal (JObj [])
  else Throw (SyntaxError "Unexpected end of JSON input").

(** A platform whose network answers every request with [response]. *)
Definition answering (response : Response) : Platform :=
  {| API_KEY := "test_key";
     fetch := fun _ => Normal response;
     JSON_stringify := stringify;
     JSON_parse := parse |}.

(** A platform without a network: every [fetch] rejects. *)
Definition offline : Platform :=
  {| API_KEY := "test_key";
     fetch := fun _ => Throw (TypeError "fetch failed");
     JSON_stringify := stringify;
     JSON_parse := parse |}.

Definition created : Response :=
  {| status := 201;
     statusText := "Created";
     json := Normal (JObj [("id", JStr "abc")]) |}.

Definition too_many_requests : Response :=
  {| status := 429;
     statusText := "Too Many Requests";
     json :=
       Normal (JObj [("errors",
                      JArr [JObj [ ("code", JNum "25");
                                   ("description", JStr "Too many requests") ]])]) |}.

Definition not_found_html : Response :=
  {| status := 404;
     statusText := "Not Found";
     json := Throw (SyntaxError "Unexpected token < in JSON at position 0") |}.

Definition unprocessable : Response :=
  {| status := 422;
     statusText := "Unprocessable Entity";
     json :=
       Normal (JObj [("errors",
                      JArr [JObj [ ("code", JNum "21");
                                   ("description", JStr "invalid recipient") ]])]) |}.

Definition empty_description : Response :=
  {| status := 400;
     statusText := "Bad Request";
     json :=
       Normal (JObj [("errors", JArr [JObj [("description", JStr "")]])]) |}.

Definition null_body (code : nat) : Response :=
  {| status := code;
     statusText := "Internal Server Error";
     json := Normal JNull |}.

(** A description that is an object with a [toString] property of its
    own: the body [{"errors":[{"description":{"toString":1}}]}]. *)
Definition unprintable_description : Response :=
  {| status := 400;
     statusText := "Bad Request";
     json :=
       Normal (JObj [("errors",
                      JArr [JObj [("description",
                                   JObj [("toString", JNum "1")])]])]) |}.

End Samples.

(** * Properties *)

Import JS Client Spec.

(** ** Template (HSM) messages *)

(** C1, as the code has it: with a non-empty button suffix, no media
    header and a non-empty parameters list, the [hsm] object uses the
    components shape, but its only component is the button block: no body
    block is built and [params] is absent, so the body parameters are
    dropped.  The specification asks for a typed body block carrying
    them, and so does the comment in the handler. *)
Theorem send_template_button_only_drops_parameters :
  forall namespace template_name language_code p ps c s,
    Messaging.send_template_hsm namespace template_name language_code
      (Some (p :: ps)) None None None (Some (String c s))
    = [ ("namespace", JStr namespace);
        ("templateName", JStr template_name);
        ("language",
         JObj [("policy", JStr "deterministic"); ("code", JStr language_code)]);
        ("components", JArr [button_block (String c s)]) ].
Proof. intros. reflexivity. Qed.

(** The same at one input: parameters [["John"]] and the suffix ["promo"]. *)
Example send_template_button_only_example :
  let hsm :=
    Messaging.send_template_hsm "ns" "welcome" "en" (Some ["John"])
      None None None (Some "promo") in
  prop_get "components" hsm = JArr [button_block "promo"]
  /\ prop_has "params" hsm = false
  /\ includes (Samples.stringify (JObj hsm) 0) "John" = false.
Proof. repeat split; reflexivity. Qed.

(** C5: with an image header and a non-empty parameters list the [hsm]
    object has the components shape and no [params] field: the components
    are the image header, the body block with the parameters and, when a
    suffix is given, the button block.  More generally, whatever the
    headers and the suffix are, a non-empty parameters list leaves exactly
    one of [params] and [components] in the object. *)
Theorem send_template_params_xor_components :
  forall namespace template_name language_code p ps
         header_image_url header_video_url header_document_url
         button_url_suffix,
    let build := Messaging.send_template_hsm namespace template_name
                   language_code (Some (p :: ps)) in
    xorb (prop_has "params"
            (build header_image_url header_video_url header_document_url
               button_url_suffix))
         (prop_has "components"
            (build header_image_url header_video_url header_document_url
               button_url_suffix)) = true
    /\ forall c s,
         let hsm := build (Some (String c s)) header_video_url
                      header_document_url button_url_suffix in
         prop_has "params" hsm = false
         /\ prop_has "components" hsm = true
         /\ prop_get "components" hsm =
              JArr (header_block "image" (String c s)
                    :: body_block (p :: ps)
                    :: if truthy (optstr button_url_suffix)
                       then [JObj [ ("type", JStr "button");
                                    ("sub_type", JStr "url");
                                    ("parameters",
                                     JArr [ JObj [ ("type", JStr "text");
                                                   ("text",
                                                    optstr button_url_suffix) ] ]) ]]
                       else []).
Proof.
  intros. split.
  - subst build. unfold Messaging.send_template_hsm.
    destruct (truthy (optstr header_image_url));
      destruct (truthy (optstr header_video_url));
      destruct (truthy (optstr header_document_url));
      destruct (truthy (optstr button_url_suffix)); reflexivity.
  - intros c s hsm. subst hsm build. unfold Messaging.send_template_hsm.
    destruct (truthy (optstr button_url_suffix)); repeat split; reflexivity.
Qed.

(** ** Captions *)

(** C6: for [audio] neither [send_media] nor [reply_to_conversation] puts
    a [caption] anywhere in the content they build, whatever the caption;
    for [image], [video] and [file] a non-empty caption is the [caption]
    of the media object in the content. *)
Theorem caption_suppressed_for_audio_only :
  (forall media_url caption,
      mentions_key "caption"
        (Messaging.send_media_content "audio" media_url caption) = false)
  /\ (forall text media_url caption latitude longitude,
        exists content,
          Conversations.reply_content "audio" text media_url caption
            latitude longitude = Some content
          /\ mentions_key "caption" content = false)
  /\ (forall type media_url c s,
        In type ["image"; "video"; "file"] ->
        Messaging.send_media_content type media_url (Some (String c s))
        = JObj [(type, JObj [ ("url", JStr media_url);
                              ("caption", JStr (String c s)) ])])
  /\ (forall type text media_url c s latitude longitude,
        In type ["image"; "video"; "file"] ->
        Conversations.reply_content type text media_url (Some (String c s))
          latitude longitude
        = Some (JObj [(type, JObj [ ("url", optstr media_url);
                                    ("caption", JStr (String c s)) ])])).
Proof.
  repeat split.
  - intros media_url [[|c s]|]; reflexivity.
  - intros text media_url caption latitude longitude.
    eexists. split; [reflexivity|].
    destruct media_url as [u|]; destruct caption as [[|c s]|]; reflexivity.
  - intros type media_url c s Hin. simpl in Hin.
    destruct Hin as [<-|[<-|[<-|[]]]]; reflexivity.
  - intros type text media_url c s latitude longitude Hin. simpl in Hin.
    destruct Hin as [<-|[<-|[<-|[]]]]; reflexivity.
Qed.

Lemma caption_suppressed_for_audio_only_witness :
  Messaging.send_media_content "image" "https://example.com/a.png"
    (Some "a cat")
  = JObj [("image", JObj [ ("url", JStr "https://example.com/a.png");
                           ("caption", JStr "a cat") ])]
  /\ Conversations.reply_content "file" None (Some "https://example.com/a.pdf")
       (Some "the report") None None
     = Some (JObj [("file", JObj [ ("url", JStr "https://example.com/a.pdf");
                                   ("caption", JStr "the report") ])]).
Proof.
  destruct caption_suppressed_for_audio_only as (_ & _ & Hmedia & Hreply).
  split.
  - apply (Hmedia "image" "https://example.com/a.png" "a"%char " cat").
    simpl. auto.
  - apply (Hreply "file" None (Some "https://example.com/a.pdf")
             "t"%char "he report" None None).
    simpl. auto.
Defined.

(** ** Optional fields guarded by truthiness *)

Lemma prop_has_prop_set (k k' : string) (v : jsval) (o : props) :
  prop_has k (prop_set k' v o) = (k' =? k) || prop_has k o.
Proof.
  induction o as [|[k0 v0] o IH]; simpl.
  - reflexivity.
  - destruct (k0 =? k') eqn:E0; simpl.
    + apply String.eqb_eq in E0. subst k0.
      destruct (k' =? k); reflexivity.
    + rewrite IH. destruct (k0 =? k), (k' =? k); reflexivity.
Qed.

Lemma prop_has_set_if (k k' : string) (c : bool) (v : jsval) (o : props) :
  prop_has k (set_if c k' v o) = (c && (k' =? k)) || prop_has k o.
Proof.
  destruct c; simpl; [apply prop_has_prop_set | reflexivity].
Qed.

(** C9: an optional string input that the handler guards by truthiness
    leaves the request body unchanged when the empty string is supplied
    instead of nothing, and the field it feeds is absent from the body in
    both runs.  Stated for [report_url] of [send_text], for [header_text],
    [header_image_url] and [footer_text] of [send_interactive_buttons], for
    the six optional fields of [create_contact], and for the analogous
    fields of [send_location], [send_interactive_list],
    [reply_to_conversation], [update_contact], [get_contact],
    [create_template], [update_template] and [send_template]. *)
Theorem empty_string_is_omission :
  (* send_text *)
  (forall to from text preview,
      Messaging.send_text_body to from text preview (Some "")
      = Messaging.send_text_body to from text preview None
      /\ has_member (Messaging.send_text_body to from text preview (Some ""))
           "reportUrl" = false
      /\ forall P,
           Messaging.send_text P to from text preview (Some "")
           = Messaging.send_text P to from text preview None)
  (* send_interactive_buttons *)
  /\ (forall body_text buttons header_text header_image_url footer_text,
        let build := Messaging.send_interactive_buttons_interactive
                       body_text buttons in
        build (Some "") header_image_url footer_text
        = build None header_image_url footer_text
        /\ build header_text (Some "") footer_text
           = build header_text None footer_text
        /\ build header_text header_image_url (Some "")
           = build header_text header_image_url None
        /\ prop_has "header" (build (Some "") (Some "") footer_text) = false
        /\ prop_has "footer" (build header_text header_image_url (Some ""))
           = false)
  (* create_contact *)
  /\ (forall msisdn f l c1 c2 c3 c4,
        let build := Contacts.create_contact_body msisdn in
        build (Some "") l c1 c2 c3 c4 = build None l c1 c2 c3 c4
        /\ build f (Some "") c1 c2 c3 c4 = build f None c1 c2 c3 c4
        /\ build f l (Some "") c2 c3 c4 = build f l None c2 c3 c4
        /\ build f l c1 (Some "") c3 c4 = build f l c1 None c3 c4
        /\ build f l c1 c2 (Some "") c4 = build f l c1 c2 None c4
        /\ build f l c1 c2 c3 (Some "") = build f l c1 c2 c3 None
        /\ has_member (build (Some "") l c1 c2 c3 c4) "firstName" = false
        /\ has_member (build f (Some "") c1 c2 c3 c4) "lastName" = false
        /\ has_member (build f l (Some "") c2 c3 c4) "custom1" = false
        /\ has_member (build f l c1 (Some "") c3 c4) "custom2" = false
        /\ has_member (build f l c1 c2 (Some "") c4) "custom3" = false
        /\ has_member (build f l c1 c2 c3 (Some "")) "custom4" = false)
  (* the analogous fields elsewhere *)
  /\ (forall to from latitude longitude name address,
        Messaging.send_location_body to from latitude longitude (Some "")
          address
        = Messaging.send_location_body to from latitude longitude None address
        /\ Messaging.send_location_body to from latitude longitude name
             (Some "")
           = Messaging.send_location_body to from latitude longitude name None)
  /\ (forall to from body_text label sections header_text footer_text,
        Messaging.send_interactive_list_body to from body_text label sections
          (Some "") footer_text
        = Messaging.send_interactive_list_body to from body_text label
            sections None footer_text
        /\ Messaging.send_interactive_list_body to from body_text label
             sections header_text (Some "")
           = Messaging.send_interactive_list_body to from body_text label
               sections header_text None)
  /\ (forall type content,
        Conversations.reply_body type content (Some "")
        = Conversations.reply_body type content None)
  /\ (forall m f l c1 c2 c3 c4,
        Contacts.update_contact_body (Some "") f l c1 c2 c3 c4
        = Contacts.update_contact_body None f l c1 c2 c3 c4
        /\ Contacts.update_contact_body m (Some "") l c1 c2 c3 c4
           = Contacts.update_contact_body m None l c1 c2 c3 c4
        /\ Contacts.update_contact_body m f (Some "") c1 c2 c3 c4
           = Contacts.update_contact_body m f None c1 c2 c3 c4
        /\ Contacts.update_contact_body m f l (Some "") c2 c3 c4
           = Contacts.update_contact_body m f l None c2 c3 c4
        /\ Contacts.update_contact_body m f l c1 (Some "") c3 c4
           = Contacts.update_contact_body m f l c1 None c3 c4
        /\ Contacts.update_contact_body m f l c1 c2 (Some "") c4
           = Contacts.update_contact_body m f l c1 c2 None c4
        /\ Contacts.update_contact_body m f l c1 c2 c3 (Some "")
           = Contacts.update_contact_body m f l c1 c2 c3 None)
  /\ (forall name language category body_text header_type header_text
             header_example_url button_type button_text button_value
             body_examples waba_id allow,
        Templates.create_template_body name language category body_text
          header_type header_text header_example_url (Some "") button_type
          button_text button_value body_examples waba_id allow
        = Templates.create_template_body name language category body_text
            header_type header_text header_example_url None button_type
            button_text button_value body_examples waba_id allow
        /\ Templates.create_template_body name language category body_text
             header_type header_text header_example_url None button_type
             button_text button_value body_examples (Some "") allow
           = Templates.create_template_body name language category body_text
               header_type header_text header_example_url None button_type
               button_text button_value body_examples None allow)
  /\ (forall namespace template_name language_code parameters image video
             document suffix,
        let build := Messaging.send_template_hsm namespace template_name
                       language_code parameters in
        build image video document (Some "") = build image video document None
        /\ build (Some "") video document suffix
           = build None video document suffix
        /\ build image (Some "") document suffix
           = build image None document suffix
        /\ build image video (Some "") suffix = build image video None suffix)
  /\ (forall body_text header_type header_text header_example_url footer_text
             button_type button_text button_value body_examples,
        let build := Templates.create_template_components body_text
                       header_type in
        build (Some "") header_example_url footer_text button_type button_text
          button_value body_examples
        = build None header_example_url footer_text button_type button_text
            button_value body_examples
        /\ build header_text (Some "") footer_text button_type button_text
             button_value body_examples
           = build header_text None footer_text button_type button_text
               button_value body_examples
        /\ build header_text header_example_url footer_text button_type
             (Some "") button_value body_examples
           = build header_text header_example_url footer_text button_type
               None button_value body_examples
        /\ build header_text header_example_url footer_text button_type
             button_text (Some "") body_examples
           = build header_text header_example_url footer_text button_type
               button_text None body_examples)
  /\ (forall P msisdn name,
        Contacts.get_contact_params (Some "") name
        = Contacts.get_contact_params None name
        /\ Contacts.get_contact_params msisdn (Some "")
           = Contacts.get_contact_params msisdn None
        /\ Contacts.get_contact P (Some "") msisdn name
           = Contacts.get_contact P None msisdn name)
  /\ (forall waba_id parsedComponents,
        Templates.update_template_body waba_id parsedComponents (Some "")
        = Templates.update_template_body waba_id parsedComponents None).
Proof.
  repeat match goal with |- _ /\ _ => split end;
    intros; cbv zeta;
    repeat match goal with |- _ /\ _ => split end;
    try reflexivity.
  all: try subst build;
    unfold Messaging.send_interactive_buttons_interactive,
      Contacts.create_contact_body, has_member;
    repeat rewrite prop_has_set_if; simpl;
    repeat rewrite andb_false_r; try reflexivity.
  - destruct (truthy (optstr header_text)),
      (truthy (optstr header_image_url)); reflexivity.
  - unfold Templates.create_template_components.
    destruct (Templates.is_string header_type "TEXT"); reflexivity.
  - unfold Templates.create_template_components.
    destruct (truthy (optstr button_type)); reflexivity.
  - unfold Templates.create_template_components.
    destruct (Templates.is_string button_type "PHONE_NUMBER"),
      (Templates.is_string button_type "URL"); reflexivity.
Qed.

(** ** What a handler leaves behind: its result and the requests it sent *)

(** [apiRequest] sends exactly one request, however the call ends. *)
Lemma apiRequest_log P endpoint method body queryParams target log :
  snd (apiRequest P endpoint method body queryParams target log)
  = (log ++ [http_request P endpoint method body queryParams target])%list.
Proof.
  unfold apiRequest, bind, do_fetch.
  destruct (fetch P _) as [response|err]; [|reflexivity].
  destruct (status response =? 204)%nat; [reflexivity|].
  destruct (negb (ok response)); [|reflexivity].
  unfold try_catch, lift, ret, throw.
  destruct (json response) as [v|e]; simpl.
  - destruct (read_errors v) as [errors|e']; [|reflexivity].
    destruct (status response =? 429)%nat; [reflexivity|].
    match goal with |- context [interpolate ?m] => destruct (interpolate m) end;
      reflexivity.
  - destruct (status response =? 429)%nat; reflexivity.
Qed.

Lemma guarded_log call wrap description log :
  snd (guarded call wrap description log) = snd (call log).
Proof.
  unfold guarded, try_catch, bind, ret.
  destruct (call log) as [[data|e] log']; reflexivity.
Qed.

Lemma guarded_shape P (call : M jsval) (description : string) log :
  exists result,
    fst (try_catch (data <- call ;; ret (toolResult P data))
           (fun error => ret (toolError (description ++ message error))) log)
    = Normal result
    /\ ((exists data, result = toolResult P data)
        \/ (exists m, result = toolError (description ++ m))).
Proof.
  unfold try_catch, bind, ret.
  destruct (call log) as [[data|e] log']; simpl; eexists; split;
    try reflexivity; [left|right]; eexists; reflexivity.
Qed.


Lemma reply_content_supported type text media_url caption latitude longitude :
  In type Server.REPLY_TYPES <->
  Conversations.reply_content type text media_url caption latitude longitude
  <> None.
Proof.
  split.
  - simpl. intros [<-|[<-|[<-|[<-|[<-|[<-|[]]]]]]]; discriminate.
  - unfold Conversations.reply_content, Server.REPLY_TYPES. simpl.
    destruct (String.eqb_spec type "text"); [auto|].
    destruct (String.eqb_spec type "image"); [auto|].
    destruct (String.eqb_spec type "video"); [auto|].
    destruct (String.eqb_spec type "audio"); [auto 6|].
    destruct (String.eqb_spec type "file"); [auto 6|].
    destruct (String.eqb_spec type "location"); [auto 7|].
    simpl. intros H. now contradiction H.
Qed.


(** ** Replies *)

(** C10: a [text] reply whose text is absent or empty is not rejected.
    The content built is [{ text: "" }]; the handler sends one request, a
    POST to the messages endpoint of the conversation, with that content
    in its body; and for each of the six types the schema allows the
    switch builds a content, so the branch of the unsupported type is not
    taken and its message is never the result. *)
Theorem reply_with_empty_text_is_sent :
  forall P conversation_id text media_url caption latitude longitude
         channel_id log,
    text = None \/ text = Some "" ->
    let content := JObj [("text", JStr "")] in
    let request :=
      http_request P ("/conversations/" ++ conversation_id ++ "/messages")
        POST (Some (Conversations.reply_body "text" content channel_id))
        None conversations in
    Conversations.reply_content "text" text media_url caption latitude
      longitude = Some content
    /\ snd (Conversations.reply_to_conversation P conversation_id "text" text
              media_url caption latitude longitude channel_id log)
       = (log ++ [request])%list
    /\ req_method request = POST
    /\ req_url request
       = CONVERSATIONS_BASE_URL ++ "/conversations/" ++ conversation_id
         ++ "/messages"
    /\ (forall type text' media_url' caption' latitude' longitude',
          In type Server.REPLY_TYPES ->
          Conversations.reply_content type text' media_url' caption'
            latitude' longitude' <> None)
    /\ (forall type text' media_url' caption' latitude' longitude'
               channel_id' log' unsupported,
          In type Server.REPLY_TYPES ->
          fst (Conversations.reply_to_conversation P conversation_id type
                 text' media_url' caption' latitude' longitude' channel_id'
                 log')
          <> Normal (toolError ("Unsupported message type: " ++ unsupported))).
Proof.
  intros P conversation_id text media_url caption latitude longitude
    channel_id log Htext content request.
  assert (Hcontent :
            Conversations.reply_content "text" text media_url caption
              latitude longitude = Some content)
    by (destruct Htext as [-> | ->]; reflexivity).
  repeat split.
  - exact Hcontent.
  - unfold Conversations.reply_to_conversation. rewrite Hcontent.
    change (snd (guarded
                   (apiRequest P
                      ("/conversations/" ++ conversation_id ++ "/messages")
                      POST
                      (Some (Conversations.reply_body "text" content
                               channel_id))
                      None conversations)
                   (toolResult P) "Failed to reply to conversation: " log)
            = (log ++ [request])%list).
    rewrite guarded_log. apply apiRequest_log.
  - intros type text' media_url' caption' latitude' longitude' Hin.
    now apply reply_content_supported.
  - intros type text' media_url' caption' latitude' longitude' channel_id'
      log' unsupported Hin.
    unfold Conversations.reply_to_conversation.
    destruct (Conversations.reply_content type text' media_url' caption'
                latitude' longitude') as [content'|] eqn:Econtent.
    + match goal with
      | |- fst (try_catch (bind ?call _) _ _) <> _ =>
          destruct (guarded_shape P call "Failed to reply to conversation: "
                      log') as (result & Hrun & [[data ->]|[m ->]])
      end; rewrite Hrun; intros H; inversion H.
    + exfalso. revert Econtent. now apply reply_content_supported.
Qed.

Lemma reply_with_empty_text_is_sent_witness :
  snd (Conversations.reply_to_conversation (Samples.answering Samples.created)
         "c1" "text" None None None None None None [])
  = [ {| req_url :=
           "https://conversations.messagebird.com/v1/conversations/c1/messages";
         req_method := POST;
         req_headers :=
           [ ("Authorization", "AccessKey test_key");
             ("Accept", "application/json");
             ("Content-Type", "application/json") ];
         req_body :=
           Some (Samples.stringify
                   (JObj [ ("type", JStr "text");
                           ("content", JObj [("text", JStr "")]) ]) 0) |} ].
Proof.
  exact (proj1 (proj2
    (reply_with_empty_text_is_sent (Samples.answering Samples.created)
       "c1" None None None None None None [] (or_introl eq_refl)))).
Defined.

(** ** Classification of failed responses *)

Lemma not_ok_not_204 (response : Response) :
  ok response = false -> (status response =? 204)%nat = false.
Proof.
  unfold ok. intros H.
  destruct (Nat.eqb_spec (status response) 204) as [E|]; [|reflexivity].
  rewrite E in H. discriminate.
Qed.

(** The optional chain of [apiRequest] reads what the specification calls
    [errors[0].description]. *)
Lemma description_chain (body : jsval) :
  nullish body = false ->
  read_errors body = Normal (member body "errors")
  /\ opt_member (opt_index0 (member body "errors")) "description"
     = errors0_description body.
Proof.
  intros Hbody. split.
  - destruct body; try discriminate; reflexivity.
  - destruct body as [| | | | | |o]; try discriminate; try reflexivity.
    simpl. destruct (prop_get "errors" o) as [| | | |s|xs|entries];
      try reflexivity.
    + destruct s; reflexivity.
    + destruct xs as [|[| | | | | |first] xs]; reflexivity.
    + unfold opt_index0, index0. simpl.
      destruct (prop_get "0" entries); reflexivity.
Qed.

(** How [apiRequest] ends on a response that is not [ok]. *)
Lemma apiRequest_not_ok P endpoint method body queryParams target log response :
  fetch P (http_request P endpoint method body queryParams target)
  = Normal response ->
  ok response = false ->
  nullish (error_body response) = false ->
  apiRequest P endpoint method body queryParams target log
  = (if (status response =? 429)%nat
     then Throw (MessageBirdApiError 429
                   "Rate limit exceeded. Try again in a moment.")
     else
       match
         interpolate (or_else (errors0_description (error_body response))
                              (JStr (statusText response)))
       with
       | Normal text =>
           Throw (MessageBirdApiError (status response)
                    ("MessageBird API error ("
                     ++ nat_to_string (status response) ++ "): " ++ text))
       | Throw e => Throw e
       end,
     (log ++ [http_request P endpoint method body queryParams target])%list).
Proof.
  intros Hfetch Hok Hbody.
  destruct (description_chain _ Hbody) as [Herrors Hchain].
  unfold apiRequest, bind, do_fetch. rewrite Hfetch.
  rewrite (not_ok_not_204 _ Hok), Hok. simpl.
  unfold try_catch, lift, ret, throw.
  unfold error_body in *.
  destruct (json response) as [v|e]; simpl in *.
  - rewrite Herrors, Hchain.
    destruct (status response =? 429)%nat; [reflexivity|].
    destruct (interpolate _); reflexivity.
  - destruct (status response =? 429)%nat; reflexivity.
Qed.

(** A failed response whose body is the JSON [null]: reading [errors] off
    it throws before the status is looked at. *)
Lemma apiRequest_null_body P endpoint method body queryParams target log
  response :
  fetch P (http_request P endpoint method body queryParams target)
  = Normal response ->
  ok response = false ->
  json response = Normal JNull ->
  apiRequest P endpoint method body queryParams target log
  = (Throw (TypeError "Cannot read properties of null (reading 'errors')"),
     (log ++ [http_request P endpoint method body queryParams target])%list).
Proof.
  intros Hfetch Hok Hnull.
  unfold apiRequest, bind, do_fetch. rewrite Hfetch.
  rewrite (not_ok_not_204 _ Hok), Hok. simpl.
  unfold try_catch, lift. rewrite Hnull. reflexivity.
Qed.

(** C2, as the code has it: on a response with status 429 whose body, if
    it parses, is not [null], [apiRequest] throws a [MessageBirdApiError]
    with status 429 and the fixed message "Rate limit exceeded. Try again
    in a moment.", whatever else the body holds. *)
Theorem rate_limit_error_is_fixed :
  forall P endpoint method body queryParams target log response,
    fetch P (http_request P endpoint method body queryParams target)
    = Normal response ->
    status response = 429 ->
    nullish (error_body response) = false ->
    apiRequest P endpoint method body queryParams target log
    = (Throw (MessageBirdApiError 429
                "Rate limit exceeded. Try again in a moment."),
       (log ++ [http_request P endpoint method body queryParams target])%list).
Proof.
  intros P endpoint method body queryParams target log response
    Hfetch Hstatus Hbody.
  rewrite (apiRequest_not_ok _ _ _ _ _ _ _ _ Hfetch); auto.
  - rewrite Hstatus. reflexivity.
  - unfold ok. rewrite Hstatus. reflexivity.
Qed.

Lemma rate_limit_error_is_fixed_witness :
  fst (apiRequest (Samples.answering Samples.too_many_requests)
         "/send" POST None None conversations [])
  = Throw (MessageBirdApiError 429
             "Rate limit exceeded. Try again in a moment.").
Proof.
  rewrite (rate_limit_error_is_fixed
             (Samples.answering Samples.too_many_requests)
             "/send" POST None None conversations []
             Samples.too_many_requests eq_refl eq_refl eq_refl).
  reflexivity.
Defined.

(** C2 does not hold as the specification words it: the message thrown on
    a 429 is not the text quoted there, and on a 429 whose body is the
    JSON [null] the error thrown is not a [MessageBirdApiError] at all. *)
Lemma rate_limit_message_differs :
  let thrown :=
    fst (apiRequest (Samples.answering Samples.too_many_requests)
           "/send" POST None None conversations []) in
  thrown
  = Throw (MessageBirdApiError 429 "Rate limit exceeded. Try again in a moment.")
  /\ thrown
     <> Throw (MessageBirdApiError 429 "rate limit exceeded, try again shortly.")
  /\ fst (apiRequest (Samples.answering (Samples.null_body 429))
            "/send" POST None None conversations [])
     = Throw (TypeError "Cannot read properties of null (reading 'errors')").
Proof.
  repeat split.
  cbv. discriminate.
Qed.

(** C3, as the code has it: on a response whose status is outside
    200..299 (so not 204 either) and is not 429, whose body, if it parses,
    is not [null], and whose [errors[0].description], if it is truthy, has
    a string form (every string, number and boolean has one; an object
    with a [toString] property of its own has none), [apiRequest] throws a
    [MessageBirdApiError] with the status of the response and the message
    "MessageBird API error (<status>): <d>".  A body that does not parse
    counts as the empty object.  [<d>] is the string form of
    [errors[0].description] when the body has it and it is truthy (a
    non-empty string appears verbatim); it is the status text when the
    description is missing or falsy, the empty string included, and when
    the body does not parse. *)
Theorem api_error_message :
  forall P endpoint method body queryParams target log response,
    fetch P (http_request P endpoint method body queryParams target)
    = Normal response ->
    ok response = false ->
    status response <> 429 ->
    nullish (error_body response) = false ->
    let d := errors0_description (error_body response) in
    (truthy d = true -> ToString d <> None) ->
    exists text,
      apiRequest P endpoint method body queryParams target log
      = (Throw (MessageBirdApiError (status response)
                  ("MessageBird API error (" ++ nat_to_string (status response)
                   ++ "): " ++ text)),
         (log ++ [http_request P endpoint method body queryParams
                    target])%list)
      /\ (forall s, d = JStr s -> s <> "" -> text = s)
      /\ (truthy d = true -> ToString d = Some text)
      /\ (truthy d = false -> text = statusText response)
      /\ (forall e, json response = Throw e -> text = statusText response).
Proof.
  intros P endpoint method body queryParams target log response
    Hfetch Hok Hstatus Hbody d Hform.
  rewrite (apiRequest_not_ok _ _ _ _ _ _ _ _ Hfetch Hok Hbody).
  destruct (Nat.eqb_spec (status response) 429); [contradiction|].
  fold d. unfold or_else, interpolate.
  destruct (truthy d) eqn:Etruthy.
  - destruct (ToString d) as [text|] eqn:Etext;
      [|exfalso; now apply Hform].
    exists text. split; [reflexivity|]. repeat split.
    + intros s Hd _. rewrite Hd in Etext. simpl in Etext. congruence.
    + discriminate.
    + intros e He. exfalso. subst d. unfold error_body in Etruthy.
      rewrite He in Etruthy. discriminate Etruthy.
  - exists (statusText response). split; [reflexivity|]. repeat split.
    + intros s Hd Hs. rewrite Hd in Etruthy. simpl in Etruthy.
      destruct s; [contradiction | discriminate Etruthy].
    + discriminate.
Qed.

Lemma api_error_message_witness :
  fst (apiRequest (Samples.answering Samples.unprocessable)
         "/send" POST None None conversations [])
  = Throw (MessageBirdApiError 422
             "MessageBird API error (422): invalid recipient").
Proof.
  assert (H422 : status Samples.unprocessable <> 429) by (simpl; lia).
  assert (Hform :
            truthy (errors0_description (error_body Samples.unprocessable))
            = true ->
            ToString (errors0_description (error_body Samples.unprocessable))
            <> None) by (intros _; discriminate).
  destruct (api_error_message
              (Samples.answering Samples.unprocessable)
              "/send" POST None None conversations []
              Samples.unprocessable eq_refl eq_refl H422 eq_refl Hform)
    as (text & Hrun & Hstring & _).
  rewrite Hrun.
  rewrite (Hstring "invalid recipient" eq_refl); [reflexivity|].
  discriminate.
Defined.

(** C3 does not hold as the specification words it.  The message opens
    with "MessageBird API error", not with "API error"; a body whose
    [errors[0].description] is the empty string yields the status text,
    not the description; a body that is the JSON [null] makes
    [apiRequest] throw a [TypeError], not a [MessageBirdApiError]; and so
    does a description that is an object with a [toString] property of
    its own, which has no string form. *)
Lemma api_error_message_differs :
  (let thrown :=
     fst (apiRequest (Samples.answering Samples.not_found_html)
            "/conversations/c1" GET None None conversations []) in
   thrown
   = Throw (MessageBirdApiError 404 "MessageBird API error (404): Not Found")
   /\ thrown <> Throw (MessageBirdApiError 404 "API error (404): Not Found"))
  /\ (errors0_description (error_body Samples.empty_description) = JStr ""
      /\ fst (apiRequest (Samples.answering Samples.empty_description)
                "/send" POST None None conversations [])
         = Throw (MessageBirdApiError 400
                    "MessageBird API error (400): Bad Request"))
  /\ fst (apiRequest (Samples.answering (Samples.null_body 500))
            "/send" POST None None conversations [])
     = Throw (TypeError "Cannot read properties of null (reading 'errors')")
  /\ (errors0_description (error_body Samples.unprintable_description)
      = JObj [("toString", JNum "1")]
      /\ fst (apiRequest (Samples.answering Samples.unprintable_description)
                "/send" POST None None conversations [])
         = Throw (TypeError "Cannot convert object to primitive value")).
Proof.
  repeat split; try reflexivity.
  cbv. discriminate.
Qed.

(** ** The query string *)

Lemma URLSearchParams_set_fresh params name value :
  ~ In name (map fst params) ->
  URLSearchParams_set params name value = (params ++ [(name, value)])%list.
Proof.
  induction params as [|[n v] params IH]; simpl; intros Hfresh.
  - reflexivity.
  - destruct (String.eqb_spec n name) as [->|Hne].
    + exfalso. apply Hfresh. now left.
    + rewrite IH; [reflexivity|]. intros Hin. apply Hfresh. now right.
Qed.

Lemma surviving_keys entries k :
  In k (map fst (surviving entries)) -> In k (map fst entries).
Proof.
  induction entries as [|[key [value|]] entries IH]; simpl; intros Hin.
  - exact Hin.
  - destruct (value =? ""); simpl in Hin.
    + right. now apply IH.
    + destruct Hin as [<-|Hin]; [now left | right; now apply IH].
  - right. now apply IH.
Qed.

(** The loop collects the surviving entries, in their order, when every
    key occurs once, as the keys of an object do. *)
Lemma collect_from acc entries :
  NoDup (map fst entries) ->
  (forall k, In k (map fst acc) -> ~ In k (map fst entries)) ->
  fold_left collect_step entries acc = (acc ++ surviving entries)%list.
Proof.
  revert acc.
  induction entries as [|[key [value|]] entries IH]; simpl;
    intros acc Hnodup Hdisjoint.
  - now rewrite app_nil_r.
  - inversion Hnodup as [|? ? Hnotin Hnodup']; subst.
    assert (Hrest : forall k, In k (map fst acc) -> ~ In k (map fst entries))
      by (intros k Hk Hin; apply (Hdisjoint k Hk); now right).
    destruct (value =? "") eqn:Evalue; simpl.
    + now apply IH.
    + rewrite URLSearchParams_set_fresh
        by (intros Hin; apply (Hdisjoint key Hin); now left).
      rewrite IH; auto.
      * now rewrite <- app_assoc.
      * intros k Hk. rewrite map_app, in_app_iff in Hk. simpl in Hk.
        destruct Hk as [Hk|[<-|[]]]; [now apply Hrest | exact Hnotin].
  - inversion Hnodup as [|? ? Hnotin Hnodup']; subst.
    apply IH; auto.
    intros k Hk Hin. apply (Hdisjoint k Hk). now right.
Qed.

Lemma collect_params_surviving entries :
  NoDup (map fst entries) -> collect_params entries = surviving entries.
Proof.
  intros Hnodup. unfold collect_params.
  rewrite collect_from; auto.
Qed.

Lemma surviving_In entries k v :
  In (k, v) (surviving entries) <-> In (k, Some v) entries /\ v <> "".
Proof.
  induction entries as [|[key [value|]] entries IH]; simpl.
  - tauto.
  - destruct (String.eqb_spec value "") as [->|Hne]; simpl.
    + rewrite IH. split.
      * intros [H1 H2]. tauto.
      * intros [[H1|H1] H2]; [|tauto].
        inversion H1; subst. contradiction.
    + rewrite IH. split.
      * intros [H1|[H1 H2]]; [|tauto].
        inversion H1; subst. tauto.
      * intros [[H1|H1] H2]; [|tauto].
        inversion H1; subst. now left.
  - rewrite IH. split.
    + intros [H1 H2]. tauto.
    + intros [[H1|H1] H2]; [discriminate|tauto].
Qed.

Lemma surviving_NoDup entries :
  NoDup (map fst entries) -> NoDup (map fst (surviving entries)).
Proof.
  induction entries as [|[key [value|]] entries IH]; simpl; intros Hnodup.
  - constructor.
  - inversion Hnodup as [|? ? Hnotin Hnodup']; subst.
    destruct (value =? ""); simpl; auto.
    constructor; auto.
    intros Hin. apply Hnotin. now apply surviving_keys.
  - inversion Hnodup; subst. auto.
Qed.

Lemma append_nonempty (a b : string) : b <> "" -> a ++ b <> "".
Proof.
  destruct a; simpl; [auto | discriminate].
Qed.

Lemma query_string_nonempty p params :
  URLSearchParams_toString (p :: params) <> "".
Proof.
  unfold URLSearchParams_toString. simpl.
  destruct (map encode_pair params);
    unfold encode_pair; apply append_nonempty; discriminate.
Qed.

Lemma urldecode_byte (c : ascii) (s : string) :
  urldecode (urlencode_byte c ++ s) = String c (urldecode s).
Proof.
  destruct c as [[] [] [] [] [] [] [] []]; reflexivity.
Qed.

Lemma urldecode_urlencode (s : string) : urldecode (urlencode s) = s.
Proof.
  induction s as [|c s IH]; simpl.
  - reflexivity.
  - rewrite urldecode_byte, IH. reflexivity.
Qed.

Lemma NoDup_keys_functional {A B : Type} (l : list (A * B)) k a b :
  NoDup (map fst l) -> In (k, a) l -> In (k, b) l -> a = b.
Proof.
  induction l as [|[k0 v0] l IH]; simpl; intros Hnodup Ha Hb.
  - contradiction.
  - inversion Hnodup as [|? ? Hnotin Hnodup']; subst.
    destruct Ha as [Ha|Ha], Hb as [Hb|Hb].
    + congruence.
    + inversion Ha; subst. exfalso. apply Hnotin.
      change k with (fst (k, b)). now apply in_map.
    + inversion Hb; subst. exfalso. apply Hnotin.
      change k with (fst (k, a)). now apply in_map.
    + now apply IH.
Qed.

(** C4: of the entries of a query-parameter object, those whose value is
    [undefined] or the empty string leave no parameter behind, and each
    other entry is a parameter of the request exactly once.  The URL is
    the base URL and the endpoint, followed, only when a parameter is
    left, by [?] and the parameters as [key=value] joined by [&], key and
    value form-urlencoded once: decoding an encoded component once gives
    it back. *)
Theorem query_parameters_filtered_and_encoded :
  forall target endpoint (entries : QueryParams),
    NoDup (map fst entries) ->
    let params := collect_params entries in
    (forall k,
        In (k, None) entries \/ In (k, Some "") entries ->
        ~ In k (map fst params))
    /\ (forall k v, In (k, Some v) entries -> v <> "" -> In (k, v) params)
    /\ (forall k v, In (k, v) params -> In (k, Some v) entries /\ v <> "")
    /\ NoDup (map fst params)
    /\ request_url target endpoint (Some entries)
       = match params with
         | [] => getBaseUrl target ++ endpoint
         | _ :: _ =>
             (getBaseUrl target ++ endpoint) ++ "?"
             ++ join_with "&"
                  (map (fun p => urlencode (fst p) ++ "=" ++ urlencode (snd p))
                       params)
         end
    /\ (forall component, urldecode (urlencode component) = component).
Proof.
  intros target endpoint entries Hnodup params.
  assert (Hparams : params = surviving entries)
    by (apply collect_params_surviving; exact Hnodup).
  assert (Hin : forall k v,
             In (k, v) params -> In (k, Some v) entries /\ v <> "")
    by (intros k v; rewrite Hparams; apply surviving_In).
  repeat split.
  - intros k Hdropped Hk.
    apply in_map_iff in Hk. destruct Hk as [[k' v] [Hfst Hkv]].
    simpl in Hfst. subst k'.
    destruct (Hin k v Hkv) as [Hentry Hv].
    destruct Hdropped as [Hnone|Hempty].
    + pose proof (NoDup_keys_functional _ _ _ _ Hnodup Hentry Hnone).
      discriminate.
    + pose proof (NoDup_keys_functional _ _ _ _ Hnodup Hentry Hempty) as E.
      inversion E. contradiction.
  - intros k v Hentry Hv. rewrite Hparams. apply surviving_In. now split.
  - now apply (Hin k v).
  - now apply (Hin k v).
  - rewrite Hparams. now apply surviving_NoDup.
  - unfold request_url. fold params.
    destruct params as [|p params'] eqn:E.
    + reflexivity.
    + pose proof (query_string_nonempty p params') as Hqs.
      simpl. destruct (String.eqb_spec (URLSearchParams_toString (p :: params')) "")
        as [Hempty|_]; [contradiction|].
      reflexivity.
  - apply urldecode_urlencode.
Qed.

Lemma query_parameters_filtered_and_encoded_witness :
  request_url rest "/contacts"
    (Some [ ("offset", Some "10");
            ("limit", None);
            ("name", Some "Ana B&C");
            ("msisdn", Some "") ])
  = "https://rest.messagebird.com/contacts?offset=10&name=Ana+B%26C".
Proof.
  assert (Hkeys : NoDup (map fst [ ("offset", Some "10");
                                   ("limit", @None string);
                                   ("name", Some "Ana B&C");
                                   ("msisdn", Some "") ])).
  { simpl. repeat constructor; simpl; intuition discriminate. }
  destruct (query_parameters_filtered_and_encoded rest "/contacts" _ Hkeys)
    as (_ & _ & _ & _ & Hurl & _).
  exact (eq_trans Hurl eq_refl).
Defined.

(** ** Placeholders in a button URL *)

Lemma string_app_assoc (a b c : string) : (a ++ b) ++ c = a ++ b ++ c.
Proof. induction a as [|x a IH]; simpl; [reflexivity | now rewrite IH]. Qed.

Lemma string_length_app (a b : string) :
  String.length (a ++ b) = String.length a + String.length b.
Proof. induction a as [|x a IH]; simpl; [reflexivity | now rewrite IH]. Qed.

Lemma prefix_empty (s : string) : prefix "" s = true.
Proof. destruct s; reflexivity. Qed.

(** What [skip_digits] returns: the digits it went over, and a remainder
    that does not start with a digit. *)
Lemma skip_digits_spec (s : string) :
  forall n tl,
    skip_digits s = (n, tl) ->
    exists digits,
      s = digits ++ tl /\ all_digits digits = true
      /\ String.length digits = n
      /\ (forall c tl', tl = String c tl' -> is_digit c = false).
Proof.
  induction s as [|c s IH]; simpl; intros n tl H.
  - inversion H; subst. exists "". repeat split; try reflexivity.
    intros c tl' Hc. discriminate.
  - destruct (is_digit c) eqn:Ec.
    + destruct (skip_digits s) as [m r] eqn:Es.
      inversion H; subst.
      destruct (IH m tl eq_refl) as (digits & Hs & Hall & Hlen & Hstop).
      exists (String c digits). simpl. rewrite Ec, Hall, Hlen, <- Hs.
      repeat split; auto.
    + inversion H; subst. exists "". repeat split; try reflexivity.
      intros c' tl' Hc. inversion Hc; subst. exact Ec.
Qed.

Lemma skip_digits_app (digits tl : string) :
  all_digits digits = true ->
  (forall c tl', tl = String c tl' -> is_digit c = false) ->
  skip_digits (digits ++ tl) = (String.length digits, tl).
Proof.
  intros Hall Hstop.
  induction digits as [|c digits IH]; simpl in *.
  - destruct tl as [|c tl']; [reflexivity|].
    simpl. now rewrite (Hstop c tl' eq_refl).
  - apply andb_prop in Hall. destruct Hall as [Hc Hall].
    rewrite Hc, IH; auto.
Qed.

Lemma after_pair_iff (a b : ascii) (s tl : string) :
  after_pair a b s = Some tl <-> s = String a (String b tl).
Proof.
  unfold after_pair. destruct s as [|x [|y s]]; try (split; discriminate).
  destruct (Ascii.eqb_spec x a) as [->|Hx];
    destruct (Ascii.eqb_spec y b) as [->|Hy]; simpl;
    split; intros H; inversion H; subst; try reflexivity; contradiction.
Qed.

(** The matcher finds exactly the placeholders at the start of a string. *)
Lemma match_placeholder_iff (s after : string) :
  match_placeholder s = Some after
  <-> exists token, placeholder token /\ s = token ++ after.
Proof.
  split.
  - unfold match_placeholder. intros H.
    destruct (after_pair "{" "{" s) as [r|] eqn:Eopen; [|discriminate H].
    apply after_pair_iff in Eopen. subst s.
    destruct (skip_digits r) as [n tl] eqn:Es.
    destruct n as [|n]; [discriminate H|].
    simpl in H. apply after_pair_iff in H. subst tl.
    destruct (skip_digits_spec _ _ _ Es) as (digits & Hr & Hall & Hlen & _).
    exists ("{{" ++ digits ++ "}}"). split.
    + exists digits. repeat split; auto.
      destruct digits; [discriminate Hlen | discriminate].
    + rewrite Hr. simpl. f_equal. f_equal.
      rewrite string_app_assoc. reflexivity.
  - intros (token & (digits & Hne & Hall & ->) & ->).
    simpl. rewrite string_app_assoc. simpl.
    unfold match_placeholder. simpl.
    rewrite skip_digits_app; auto.
    + destruct digits; [contradiction|reflexivity].
    + intros c tl' Hc. inversion Hc; subst. reflexivity.
Qed.

Lemma match_placeholder_shorter (s after : string) :
  match_placeholder s = Some after -> String.length after < String.length s.
Proof.
  intros H. apply match_placeholder_iff in H.
  destruct H as (token & (digits & _ & _ & ->) & ->).
  rewrite string_length_app. simpl. lia.
Qed.

(** Enough fuel makes [replace_placeholders_from] the substitution. *)
Lemma replace_placeholders_from_Substituted (by_ : string) (fuel : nat) :
  forall s,
    String.length s <= fuel ->
    Substituted by_ s (replace_placeholders_from fuel by_ s).
Proof.
  induction fuel as [|fuel IH]; intros s Hlen.
  - destruct s; [constructor | simpl in Hlen; lia].
  - destruct s as [|c s]; [constructor|].
    cbn [replace_placeholders_from].
    destruct (match_placeholder (String c s)) as [after|] eqn:Em.
    + pose proof (match_placeholder_shorter _ _ Em) as Hshort.
      apply match_placeholder_iff in Em.
      destruct Em as (token & Htoken & ->).
      apply Substituted_token; [exact Htoken|].
      apply IH. lia.
    + apply Substituted_char.
      * intros token after Htoken Heq.
        assert (match_placeholder (String c s) = Some after) as Hm
            by (apply match_placeholder_iff; now exists token).
        congruence.
      * apply IH. simpl in Hlen. lia.
Qed.

(** The substitution is a function: [replace_placeholders] is its only
    result. *)
Lemma Substituted_replace_placeholders (by_ s out : string) :
  Substituted by_ s out <-> out = replace_placeholders s by_.
Proof.
  split.
  - intros H. unfold replace_placeholders.
    assert (Hfuel : forall fuel, String.length s <= fuel ->
                                 out = replace_placeholders_from fuel by_ s);
      [|now apply Hfuel].
    induction H as [|token more out Htoken Hsub IH|c more out Hnone Hsub IH];
      intros fuel Hlen.
    + destruct fuel; reflexivity.
    + assert (Hm : match_placeholder (token ++ more) = Some more)
        by (apply match_placeholder_iff; now exists token).
      pose proof (match_placeholder_shorter _ _ Hm) as Hshort.
      destruct (token ++ more) as [|c s'] eqn:E; [discriminate Hm|].
      destruct fuel as [|fuel]; [simpl in Hlen; lia|].
      cbn [replace_placeholders_from]. rewrite Hm.
      rewrite <- IH; [reflexivity | simpl in *; lia].
    + destruct fuel as [|fuel]; [simpl in Hlen; lia|].
      cbn [replace_placeholders_from].
      destruct (match_placeholder (String c more)) as [after|] eqn:Em.
      * apply match_placeholder_iff in Em.
        destruct Em as (token & Htoken & Heq).
        exfalso. exact (Hnone token after Htoken Heq).
      * rewrite <- IH; [reflexivity | simpl in Hlen; lia].
  - intros ->. apply replace_placeholders_from_Substituted. lia.
Qed.

Lemma includes_app (before s sub : string) :
  includes s sub = true -> includes (before ++ s) sub = true.
Proof.
  intros H. induction before as [|c before IH]; simpl.
  - exact H.
  - rewrite IH. apply orb_true_r.
Qed.

(** A value that holds a placeholder is not empty and includes the two
    opening braces the handler looks for. *)
Lemma has_placeholder_includes (value : string) :
  has_placeholder value ->
  includes value "{{" = true /\ exists c s, value = String c s.
Proof.
  intros (before & token & after & (digits & _ & _ & ->) & ->). split.
  - apply includes_app. simpl. rewrite prefix_empty. reflexivity.
  - destruct before as [|c before]; simpl; eauto.
Qed.

(** ** Template creation *)

(** C7: the components [create_template] assembles are, in this order, a
    HEADER block when a header type is given, the BODY block, a FOOTER
    block when a footer text is given and a BUTTONS block when a button
    type and a button text are given.  When the button is of type URL and
    its value holds a placeholder, the button carries the URL and an
    example array whose one element is the value with every placeholder
    replaced by "example_value". *)
Theorem create_template_components_order :
  forall body_text header_type header_text header_example_url footer_text
         button_type button_text button_value body_examples,
    let components :=
      Templates.create_template_components body_text header_type header_text
        header_example_url footer_text button_type button_text button_value
        body_examples in
    map (fun block => member block "type") components
    = ((if truthy (optstr header_type) then [JStr "HEADER"] else [])
       ++ [JStr "BODY"]
       ++ (if truthy (optstr footer_text) then [JStr "FOOTER"] else [])
       ++ (if truthy (optstr button_type) && truthy (optstr button_text)
           then [JStr "BUTTONS"] else []))%list
    /\ (forall label value,
          button_type = Some "URL" ->
          button_text = Some label -> label <> "" ->
          button_value = Some value -> has_placeholder value ->
          exists example,
            Substituted "example_value" value example
            /\ (forall other,
                  Substituted "example_value" value other -> other = example)
            /\ last components JUndefined
               = JObj [ ("type", JStr "BUTTONS");
                        ("buttons",
                         JArr [ JObj [ ("type", JStr "URL");
                                       ("text", JStr label);
                                       ("url", JStr value);
                                       ("example", JArr [JStr example]) ] ]) ]).
Proof.
  intros. split.
  - subst components. unfold Templates.create_template_components, set_if.
    destruct (truthy (optstr header_type));
      destruct (truthy (optstr footer_text));
      destruct (truthy (optstr button_type) && truthy (optstr button_text));
      destruct (non_empty body_examples);
      repeat match goal with
             | |- context [if ?b then _ else _] => destruct b
             | |- context [match ?o with Some _ => _ | None => _ end] =>
                 destruct o
             end;
      reflexivity.
  - intros label value Htype Htext Hlabel Hvalue Hplaceholder.
    exists (replace_placeholders value "example_value").
    split; [now apply Substituted_replace_placeholders|].
    split; [intros other; apply Substituted_replace_placeholders|].
    destruct (has_placeholder_includes _ Hplaceholder)
      as [Hincludes (c & s & Hnonempty)].
    subst components button_type button_text button_value.
    destruct label as [|l label]; [contradiction|].
    assert (Htruthy : truthy (JStr value) = true)
      by (rewrite Hnonempty; reflexivity).
    unfold Templates.create_template_components.
    cbn [optstr]. rewrite Htruthy, Hincludes. simpl.
    apply last_last.
Qed.

Lemma create_template_components_order_witness :
  exists example,
    Substituted "example_value" "https://shop.example/{{1}}/p{{22}}" example
    /\ (forall other,
          Substituted "example_value" "https://shop.example/{{1}}/p{{22}}"
            other -> other = example)
    /\ last (Templates.create_template_components "Hello {{1}}" (Some "TEXT")
               (Some "Welcome") None (Some "Bye") (Some "URL") (Some "Open")
               (Some "https://shop.example/{{1}}/p{{22}}") (Some ["Ana"]))
            JUndefined
       = JObj [ ("type", JStr "BUTTONS");
                ("buttons",
                 JArr [ JObj [ ("type", JStr "URL");
                               ("text", JStr "Open");
                               ("url",
                                JStr "https://shop.example/{{1}}/p{{22}}");
                               ("example", JArr [JStr example]) ] ]) ].
Proof.
  apply (proj2 (create_template_components_order "Hello {{1}}" (Some "TEXT")
                  (Some "Welcome") None (Some "Bye") (Some "URL") (Some "Open")
                  (Some "https://shop.example/{{1}}/p{{22}}") (Some ["Ana"]))
           "Open" "https://shop.example/{{1}}/p{{22}}"
           eq_refl eq_refl).
  - discriminate.
  - reflexivity.
  - exists "https://shop.example/", "{{1}}", "/p{{22}}". split.
    + exists "1". repeat split. discriminate.
    + reflexivity.
Defined.

(** The substitution, computed: every placeholder is replaced, and what
    is not one is kept. *)
Example create_template_example_value :
  replace_placeholders "https://shop.example/{{1}}/p{{22}}" "example_value"
  = "https://shop.example/example_value/pexample_value"
  /\ replace_placeholders "{{name}} {{}} {{1}" "example_value"
     = "{{name}} {{}} {{1}".
Proof. split; reflexivity. Qed.

(** ** The handler boundary *)



(** * Further properties of the dispatch layer *)

Lemma apiRequest_no_content P endpoint method body queryParams target log
  response :
  fetch P (http_request P endpoint method body queryParams target)
  = Normal response ->
  status response = 204 ->
  apiRequest P endpoint method body queryParams target log
  = (Normal (JObj []),
     (log ++ [http_request P endpoint method body queryParams target])%list).
Proof.
  intros Hfetch Hstatus.
  unfold apiRequest, bind, do_fetch. rewrite Hfetch, Hstatus. reflexivity.
Qed.

Lemma apiRequest_ok P endpoint method body queryParams target log response :
  fetch P (http_request P endpoint method body queryParams target)
  = Normal response ->
  ok response = true ->
  status response <> 204 ->
  apiRequest P endpoint method body queryParams target log
  = (json response,
     (log ++ [http_request P endpoint method body queryParams target])%list).
Proof.
  intros Hfetch Hok Hstatus.
  unfold apiRequest, bind, do_fetch. rewrite Hfetch, Hok.
  destruct (Nat.eqb_spec (status response) 204); [contradiction|].
  reflexivity.
Qed.

Lemma apiRequest_rejected P endpoint method body queryParams target log e :
  fetch P (http_request P endpoint method body queryParams target)
  = Throw e ->
  apiRequest P endpoint method body queryParams target log
  = (Throw e,
     (log ++ [http_request P endpoint method body queryParams target])%list).
Proof.
  intros Hfetch.
  unfold apiRequest, bind, do_fetch. rewrite Hfetch. reflexivity.
Qed.

(** X1: a response with status 204 is an empty result: [apiRequest]
    returns the empty object without reading the body, whatever the body
    is. *)
Theorem no_content_is_empty_object :
  forall P endpoint method body queryParams target log response,
    fetch P (http_request P endpoint method body queryParams target)
    = Normal response ->
    status response = 204 ->
    apiRequest P endpoint method body queryParams target log
    = (Normal (JObj []),
       (log ++ [http_request P endpoint method body queryParams target])%list).
Proof.
  intros P endpoint method body queryParams target log response.
  apply apiRequest_no_content.
Qed.

Lemma no_content_is_empty_object_witness :
  apiRequest
    (Samples.answering
       {| status := 204; statusText := "No Content";
          json := Throw (Samples.SyntaxError "Unexpected end of JSON input") |})
    "/contacts/c1" DELETE None None rest []
  = (Normal (JObj []),
     [ {| req_url := "https://rest.messagebird.com/contacts/c1";
          req_method := DELETE;
          req_headers := [ ("Authorization", "AccessKey test_key");
                           ("Accept", "application/json") ];
          req_body := None |} ]).
Proof.
  exact (no_content_is_empty_object
           (Samples.answering
              {| status := 204; statusText := "No Content";
                 json := Throw (Samples.SyntaxError
                                  "Unexpected end of JSON input") |})
           "/contacts/c1" DELETE None None rest [] _ eq_refl eq_refl).
Defined.

(** X2: on a response with a status in 200..299 other than 204,
    [apiRequest] ends as reading the body as JSON ends: it returns the
    parsed value as it is, and a body that does not parse makes it throw
    the parse error. *)
Theorem success_returns_parsed_body :
  forall P endpoint method body queryParams target log response,
    fetch P (http_request P endpoint method body queryParams target)
    = Normal response ->
    ok response = true ->
    status response <> 204 ->
    apiRequest P endpoint method body queryParams target log
    = (json response,
       (log ++ [http_request P endpoint method body queryParams target])%list).
Proof.
  intros P endpoint method body queryParams target log response.
  apply apiRequest_ok.
Qed.

Lemma success_returns_parsed_body_witness :
  fst (apiRequest (Samples.answering Samples.created)
         "/send" POST (Some (JObj [])) None conversations [])
  = Normal (JObj [("id", JStr "abc")]).
Proof.
  assert (H201 : status Samples.created <> 204) by (simpl; lia).
  rewrite (success_returns_parsed_body (Samples.answering Samples.created)
             "/send" POST (Some (JObj [])) None conversations []
             Samples.created eq_refl eq_refl H201).
  reflexivity.
Defined.

(** X3: a network failure is not classified: when [fetch] rejects,
    [apiRequest] throws the same error, after the one request it sent. *)
Theorem network_failure_propagates :
  forall P endpoint method body queryParams target log e,
    fetch P (http_request P endpoint method body queryParams target)
    = Throw e ->
    apiRequest P endpoint method body queryParams target log
    = (Throw e,
       (log ++ [http_request P endpoint method body queryParams target])%list).
Proof.
  intros P endpoint method body queryParams target log e.
  apply apiRequest_rejected.
Qed.

Lemma network_failure_propagates_witness :
  fst (apiRequest Samples.offline "/conversations" GET None None
         conversations [])
  = Throw (TypeError "fetch failed").
Proof.
  rewrite (network_failure_propagates Samples.offline "/conversations" GET
             None None conversations [] (TypeError "fetch failed") eq_refl).
  reflexivity.
Defined.

(** X4: the error branch reads [errors] off the parsed body before it
    looks at the status, so a failed response whose body is the JSON
    [null] makes [apiRequest] throw a [TypeError], for a 429 as for any
    other failure status. *)
Theorem null_error_body_raises_type_error :
  forall P endpoint method body queryParams target log response,
    fetch P (http_request P endpoint method body queryParams target)
    = Normal response ->
    ok response = false ->
    json response = Normal JNull ->
    apiRequest P endpoint method body queryParams target log
    = (Throw (TypeError "Cannot read properties of null (reading 'errors')"),
       (log ++ [http_request P endpoint method body queryParams target])%list).
Proof.
  intros. now apply apiRequest_null_body with (response := response).
Qed.

Lemma null_error_body_raises_type_error_witness :
  fst (apiRequest (Samples.answering (Samples.null_body 503))
         "/send" POST None None conversations [])
  = Throw (TypeError "Cannot read properties of null (reading 'errors')").
Proof.
  rewrite (null_error_body_raises_type_error
             (Samples.answering (Samples.null_body 503))
             "/send" POST None None conversations []
             (Samples.null_body 503) eq_refl eq_refl eq_refl).
  reflexivity.
Defined.

(** * Further properties of the handlers *)

(** A handler around one call of [apiRequest]: the request is sent, and
    the result wraps what the call returned or reports what it threw. *)
Lemma run_handler P endpoint method body queryParams target
  (wrap : jsval -> ToolResult) (description : string) log :
  try_catch
    (data <- apiRequest P endpoint method body queryParams target ;;
     ret (wrap data))
    (fun error => ret (toolError (description ++ message error))) log
  = (Normal
       match fst (apiRequest P endpoint method body queryParams target log)
       with
       | Normal data => wrap data
       | Throw e => toolError (description ++ message e)
       end,
     (log ++ [http_request P endpoint method body queryParams target])%list).
Proof.
  pose proof (apiRequest_log P endpoint method body queryParams target log)
    as Hlog.
  unfold try_catch, bind, ret.
  destruct (apiRequest P endpoint method body queryParams target log)
    as [[data|e] log']; simpl in *; subst; reflexivity.
Qed.

(** What a call does, when it is not answered from the input alone: it
    sends one request through [apiRequest] and wraps the outcome. *)
Lemma invoke_sends P (c : Server.ToolCall) log :
  (answered_from_input P c
   /\ exists msg, Server.invoke P c log = (Normal (toolError msg), log))
  \/ exists endpoint method body queryParams,
       ~ answered_from_input P c /\
       Server.invoke P c log
       = (Normal
            match
              fst (apiRequest P endpoint method body queryParams (service c)
                     log)
            with
            | Normal data =>
                toolResult P
                  match deletion_report c with
                  | Some report => report
                  | None => data
                  end
            | Throw e =>
                toolError (Server.failure_description c ++ message e)
            end,
          (log ++ [http_request P endpoint method body queryParams
                     (service c)])%list)
       /\ (Server.readOnlyHint c = true -> method = GET /\ body = None)
       /\ (Server.destructiveHint c = true -> method = DELETE /\ body = None)
       /\ (Server.readOnlyHint c = false ->
           Server.destructiveHint c = false ->
           (method = POST \/ method = PUT \/ method = PATCH) /\ body <> None).
Proof.
  destruct c; simpl Server.invoke;
    try (right; do 4 eexists; split; [simpl; tauto|]; split;
         [ apply run_handler
         | simpl; repeat split; intros; try discriminate; auto ]).
  - (* reply_to_conversation *)
    unfold Conversations.reply_to_conversation.
    destruct (Conversations.reply_content type text media_url caption
                latitude longitude) as [content|] eqn:Econtent.
    + right. do 4 eexists. split.
      * simpl. intros Hout. apply Hout.
        apply (reply_content_supported type text media_url caption latitude
                 longitude).
        rewrite Econtent. discriminate.
      * split; [apply run_handler|].
        simpl; repeat split; intros; try discriminate; auto.
    + left. split.
      * simpl. intros Hin.
        apply reply_content_supported with (text := text)
          (media_url := media_url) (caption := caption)
          (latitude := latitude) (longitude := longitude) in Hin.
        contradiction.
      * eexists. reflexivity.
  - (* update_template *)
    unfold Templates.update_template.
    destruct (JSON_parse P components) as [parsedComponents|e] eqn:Eparse.
    + right. do 4 eexists. split.
      * simpl. intros [e He]. congruence.
      * split; [apply run_handler|].
        simpl; repeat split; intros; try discriminate; auto.
    + left. split; [simpl; now exists e|]. eexists. reflexivity.
  - (* get_contact *)
    unfold Contacts.get_contact. right.
    destruct (truthy (optstr contact_id)); do 4 eexists;
      (split; [simpl; tauto|]); (split; [apply run_handler|]);
      simpl; repeat split; intros; try discriminate; auto.
Qed.

Lemma request_url_starts_with_base target endpoint queryParams :
  exists tail, request_url target endpoint queryParams
               = getBaseUrl target ++ tail.
Proof.
  unfold request_url. destruct queryParams as [entries|].
  - destruct (truthy _).
    + eexists. rewrite string_app_assoc. reflexivity.
    + eexists. reflexivity.
  - eexists. reflexivity.
Qed.

Lemma log_one_more {A : Type} (log : list A) (a b : A) :
  (log ++ [a] = log ++ [b])%list -> a = b.
Proof.
  intros H. apply app_inv_head in H. now inversion H.
Qed.

Lemma log_not_longer {A : Type} (log : list A) (a : A) :
  log <> (log ++ [a])%list.
Proof.
  intros H. apply (f_equal (@List.length A)) in H.
  rewrite length_app in H. simpl in H. lia.
Qed.

(** X5: a call sends one request or none.  It sends none exactly when it
    is answered from the input alone, an [update_template] whose
    components text does not parse or a reply of an unknown type, and then
    the result is an error result; every other call sends exactly one
    request, however it ends. *)
Theorem one_request_per_call :
  forall P (c : Server.ToolCall) log,
    (answered_from_input P c
     /\ snd (Server.invoke P c log) = log
     /\ exists msg, fst (Server.invoke P c log) = Normal (toolError msg))
    \/ (~ answered_from_input P c
        /\ exists request,
             snd (Server.invoke P c log) = (log ++ [request])%list).
Proof.
  intros P c log.
  destruct (invoke_sends P c log)
    as [[Hin [msg Hrun]] | (endpoint & method & body & queryParams
                            & Hout & Hrun & _)].
  - left. rewrite Hrun. simpl. split; [exact Hin|]. split; [reflexivity|].
    now exists msg.
  - right. split; [exact Hout|]. rewrite Hrun. simpl. eauto.
Qed.

(** X6: the requests agree with the annotations the tools are registered
    with.  A tool registered as read-only sends a GET without a body and
    without a content type; a tool registered as destructive sends a
    DELETE without a body; any other tool sends a POST, a PUT or a PATCH
    with a JSON body and its content type. *)
Theorem requests_match_hints :
  forall P (c : Server.ToolCall) log request,
    snd (Server.invoke P c log) = (log ++ [request])%list ->
    (Server.readOnlyHint c = true ->
     req_method request = GET /\ req_body request = None
     /\ ~ In "Content-Type" (map fst (req_headers request)))
    /\ (Server.destructiveHint c = true ->
        req_method request = DELETE /\ req_body request = None
        /\ ~ In "Content-Type" (map fst (req_headers request)))
    /\ (Server.readOnlyHint c = false ->
        Server.destructiveHint c = false ->
        (req_method request = POST \/ req_method request = PUT
         \/ req_method request = PATCH)
        /\ req_body request <> None
        /\ In ("Content-Type", "application/json") (req_headers request)).
Proof.
  intros P c log request Hsent.
  destruct (invoke_sends P c log)
    as [[_ [msg Hrun]] | (endpoint & method & body & queryParams
                          & _ & Hrun & Hread & Hdestroy & Hwrite)].
  - rewrite Hrun in Hsent. simpl in Hsent.
    now apply log_not_longer in Hsent.
  - rewrite Hrun in Hsent. simpl in Hsent.
    apply log_one_more in Hsent. subst request.
    unfold http_request, request_headers. simpl.
    repeat split.
    + now apply Hread.
    + destruct (Hread H) as [_ ->]. reflexivity.
    + destruct (Hread H) as [_ ->]. simpl.
      intros [E|[E|[]]]; discriminate.
    + now apply Hdestroy.
    + destruct (Hdestroy H) as [_ ->]. reflexivity.
    + destruct (Hdestroy H) as [_ ->]. simpl.
      intros [E|[E|[]]]; discriminate.
    + now apply Hwrite.
    + destruct (Hwrite H H0) as [_ Hbody].
      destruct body; [discriminate | contradiction].
    + destruct (Hwrite H H0) as [_ Hbody].
      destruct body; [simpl; auto | contradiction].
Qed.

Lemma requests_match_hints_witness :
  let request :=
    {| req_url := "https://rest.messagebird.com/contacts?offset=20";
       req_method := GET;
       req_headers := [ ("Authorization", "AccessKey test_key");
                        ("Accept", "application/json") ];
       req_body := None |} in
  snd (Server.invoke Samples.offline
         (Server.call_list_contacts (Some "20") None) [])
  = [request]
  /\ req_method request = GET /\ req_body request = None
  /\ ~ In "Content-Type" (map fst (req_headers request)).
Proof.
  intros request. split; [reflexivity|].
  exact (proj1 (requests_match_hints Samples.offline
                  (Server.call_list_contacts (Some "20") None) [] request
                  eq_refl) eq_refl).
Defined.

(** X7: every request goes to the service of its family of tools: the
    URL of a request of a messaging or conversation tool starts with the
    base URL of the conversations service, that of a template tool with
    the base URL of the integrations service, that of a contact tool with
    the base URL of the REST service. *)
Theorem requests_go_to_their_service :
  forall P (c : Server.ToolCall) log request,
    snd (Server.invoke P c log) = (log ++ [request])%list ->
    exists tail, req_url request = getBaseUrl (service c) ++ tail.
Proof.
  intros P c log request Hsent.
  destruct (invoke_sends P c log)
    as [[_ [msg Hrun]] | (endpoint & method & body & queryParams
                          & _ & Hrun & _)].
  - rewrite Hrun in Hsent. simpl in Hsent.
    now apply log_not_longer in Hsent.
  - rewrite Hrun in Hsent. simpl in Hsent.
    apply log_one_more in Hsent. subst request.
    apply request_url_starts_with_base.
Qed.

Lemma requests_go_to_their_service_witness :
  exists tail,
    "https://integrations.messagebird.com/v3/platforms/whatsapp/templates/welcome/en"
    = "https://integrations.messagebird.com" ++ tail.
Proof.
  exact (requests_go_to_their_service Samples.offline
           (Server.call_get_template "welcome" "en") []
           {| req_url :=
                "https://integrations.messagebird.com/v3/platforms/whatsapp/templates/welcome/en";
              req_method := GET;
              req_headers := [ ("Authorization", "AccessKey test_key");
                               ("Accept", "application/json") ];
              req_body := None |}
           eq_refl).
Defined.

(** X8: how a failed request reaches the caller: always as an error
    result whose message is the description of the operation followed by
    the message of what was thrown.  That message is the one of the
    network failure when [fetch] rejects.  On a response outside 200..299
    it is "Cannot read properties of null (reading 'errors')" when the
    body is the JSON [null]; otherwise the fixed rate-limit message on a
    429, and on another status "MessageBird API error (<status>): <d>",
    [<d>] being the string form of [errors[0].description] when that is
    truthy (a non-empty string appears verbatim) and the status text when
    it is missing or falsy, or "Cannot convert object to primitive value"
    when the description is truthy and has no string form. *)
Theorem failed_request_is_reported :
  forall P (c : Server.ToolCall) log request,
    snd (Server.invoke P c log) = (log ++ [request])%list ->
    let reported (msg : string) :=
      fst (Server.invoke P c log)
      = Normal (toolError (Server.failure_description c ++ msg)) in
    (forall e, fetch P request = Throw e -> reported (message e))
    /\ (forall response,
          fetch P request = Normal response ->
          ok response = false ->
          let d := errors0_description (error_body response) in
          let api_error (text : string) :=
            "MessageBird API error (" ++ nat_to_string (status response)
            ++ "): " ++ text in
          (error_body response = JNull ->
           reported "Cannot read properties of null (reading 'errors')")
          /\ (nullish (error_body response) = false ->
              (status response = 429 ->
               reported "Rate limit exceeded. Try again in a moment.")
              /\ (status response <> 429 ->
                  (forall s, d = JStr s -> s <> "" -> reported (api_error s))
                  /\ (forall text,
                        truthy d = true -> ToString d = Some text ->
                        reported (api_error text))
                  /\ (truthy d = true -> ToString d = None ->
                      reported "Cannot convert object to primitive value")
                  /\ (truthy d = false ->
                      reported (api_error (statusText response)))))).
Proof.
  intros P c log request Hsent reported.
  destruct (invoke_sends P c log)
    as [[_ [msg Hrun]] | (endpoint & method & body & queryParams
                          & _ & Hrun & _)].
  { rewrite Hrun in Hsent. simpl in Hsent.
    now apply log_not_longer in Hsent. }
  pose proof Hsent as Hrequest.
  rewrite Hrun in Hrequest. simpl in Hrequest.
  apply log_one_more in Hrequest. subst request.
  subst reported. cbv beta. rewrite Hrun. simpl fst.
  split.
  - intros e Hfetch.
    rewrite (apiRequest_rejected _ _ _ _ _ _ _ _ Hfetch). reflexivity.
  - intros response Hfetch Hok d api_error. split.
    + intros Hnull.
      assert (Hjson : json response = Normal JNull).
      { unfold error_body in Hnull.
        destruct (json response) as [v|e]; [now subst v | discriminate]. }
      rewrite (apiRequest_null_body _ _ _ _ _ _ _ _ Hfetch Hok Hjson).
      reflexivity.
    + intros Hbody.
      rewrite (apiRequest_not_ok _ _ _ _ _ _ _ _ Hfetch Hok Hbody).
      fold d. split.
      * intros Hstatus. rewrite Hstatus. reflexivity.
      * intros Hstatus.
        destruct (Nat.eqb_spec (status response) 429); [contradiction|].
        unfold or_else, interpolate. repeat split.
        -- intros s Hd Hs. rewrite Hd. simpl.
           destruct s; [contradiction | reflexivity].
        -- intros text Ht Hs. rewrite Ht, Hs. reflexivity.
        -- intros Ht Hs. rewrite Ht, Hs. reflexivity.
        -- intros Hf. rewrite Hf. reflexivity.
Qed.

Lemma failed_request_is_reported_witness :
  fst (Server.invoke (Samples.answering Samples.unprocessable)
         (Server.call_send_text "+5511999999999" "CHANNEL123" "hello" None
            None) [])
  = Normal (toolError
              "Failed to send text message: MessageBird API error (422): invalid recipient").
Proof.
  assert (H422 : status Samples.unprocessable <> 429) by (simpl; lia).
  destruct (failed_request_is_reported
              (Samples.answering Samples.unprocessable)
              (Server.call_send_text "+5511999999999" "CHANNEL123" "hello"
                 None None) [] _ eq_refl)
    as (_ & Hresponse).
  destruct (Hresponse Samples.unprocessable eq_refl eq_refl)
    as (_ & Hbody).
  destruct (Hbody eq_refl) as (_ & Hstatus).
  destruct (Hstatus H422) as (Hdescription & _).
  refine (eq_trans (Hdescription "invalid recipient" eq_refl _) eq_refl).
  discriminate.
Defined.

(** X9: how a successful request reaches the caller.  On a 204 the
    result wraps the empty object, on another status in 200..299 the
    parsed body; a delete tool reports its own [{ deleted: true, ... }]
    instead, whatever the body held.  A body that does not parse on a
    status other than 204 makes the call an error, for a delete tool
    too. *)
Theorem successful_request_is_wrapped :
  forall P (c : Server.ToolCall) log request response,
    snd (Server.invoke P c log) = (log ++ [request])%list ->
    fetch P request = Normal response ->
    ok response = true ->
    let wrapped (data : jsval) :=
      fst (Server.invoke P c log)
      = Normal (toolResult P
                  match deletion_report c with
                  | Some report => report
                  | None => data
                  end) in
    (status response = 204 -> wrapped (JObj []))
    /\ (forall data,
          status response <> 204 -> json response = Normal data ->
          wrapped data)
    /\ (forall e,
          status response <> 204 -> json response = Throw e ->
          fst (Server.invoke P c log)
          = Normal (toolError (Server.failure_description c ++ message e))).
Proof.
  intros P c log request response Hsent Hfetch Hok wrapped.
  destruct (invoke_sends P c log)
    as [[_ [msg Hrun]] | (endpoint & method & body & queryParams
                          & _ & Hrun & _)].
  { rewrite Hrun in Hsent. simpl in Hsent.
    now apply log_not_longer in Hsent. }
  pose proof Hsent as Hrequest.
  rewrite Hrun in Hrequest. simpl in Hrequest.
  apply log_one_more in Hrequest. subst request.
  subst wrapped. cbv beta. rewrite Hrun. simpl.
  repeat split.
  - intros Hstatus.
    rewrite (apiRequest_no_content _ _ _ _ _ _ _ _ Hfetch Hstatus).
    reflexivity.
  - intros data Hstatus Hjson.
    rewrite (apiRequest_ok _ _ _ _ _ _ _ _ Hfetch Hok Hstatus).
    simpl. rewrite Hjson. reflexivity.
  - intros e Hstatus Hjson.
    rewrite (apiRequest_ok _ _ _ _ _ _ _ _ Hfetch Hok Hstatus).
    simpl. rewrite Hjson. reflexivity.
Qed.

Lemma successful_request_is_wrapped_witness :
  fst (Server.invoke (Samples.answering Samples.created)
         (Server.call_delete_contact "c1") [])
  = Normal (toolResult (Samples.answering Samples.created)
              (JObj [("deleted", JBool true); ("id", JStr "c1")])).
Proof.
  assert (H201 : status Samples.created <> 204) by (simpl; lia).
  destruct (successful_request_is_wrapped
              (Samples.answering Samples.created)
              (Server.call_delete_contact "c1") [] _ Samples.created
              eq_refl eq_refl eq_refl)
    as (_ & Hbody & _).
  exact (Hbody (JObj [("id", JStr "abc")]) H201 eq_refl).
Defined.

(** * Further properties of the contact tools *)

(** X10: [get_contact] looks a contact up by its identifier when one is
    given: the request is a GET of [/contacts/<id>] on the REST service
    without a query, and the phone number and the name are ignored.
    Without an identifier, an empty one included, it queries the list
    endpoint [/contacts] with those of [msisdn] and [name], in this order,
    that are given and not empty. *)
Theorem get_contact_lookup :
  forall P msisdn name log,
    (forall c s,
        snd (Contacts.get_contact P (Some (String c s)) msisdn name log)
        = (log ++ [http_request P ("/contacts/" ++ String c s) GET None None
                     rest])%list
        /\ req_url (http_request P ("/contacts/" ++ String c s) GET None None
                      rest)
           = "https://rest.messagebird.com/contacts/" ++ String c s)
    /\ (forall contact_id,
          contact_id = None \/ contact_id = Some "" ->
          exists request,
            snd (Contacts.get_contact P contact_id msisdn name log)
            = (log ++ [request])%list
            /\ req_method request = GET
            /\ req_body request = None
            /\ req_url request
               = "https://rest.messagebird.com/contacts"
                 ++ match truthy (optstr msisdn), truthy (optstr name) with
                    | true, true =>
                        "?msisdn=" ++ urlencode (interpolate_optstr msisdn)
                        ++ "&name=" ++ urlencode (interpolate_optstr name)
                    | true, false =>
                        "?msisdn=" ++ urlencode (interpolate_optstr msisdn)
                    | false, true =>
                        "?name=" ++ urlencode (interpolate_optstr name)
                    | false, false => ""
                    end).
Proof.
  intros P msisdn name log. split.
  - intros c s. split; [|reflexivity].
    unfold Contacts.get_contact. simpl truthy. cbv iota.
    rewrite run_handler. reflexivity.
  - intros contact_id Hid.
    assert (Hfalsy : truthy (optstr contact_id) = false)
      by (destruct Hid as [-> | ->]; reflexivity).
    unfold Contacts.get_contact. rewrite Hfalsy.
    rewrite run_handler. eexists. split; [reflexivity|].
    split; [reflexivity|]. split; [reflexivity|].
    destruct msisdn as [[|a m]|], name as [[|b n]|]; simpl;
      try reflexivity;
      unfold request_url, collect_params, URLSearchParams_toString,
        encode_pair; simpl;
      repeat rewrite string_app_assoc; reflexivity.
Qed.

Lemma get_contact_lookup_witness :
  exists request,
    snd (Contacts.get_contact Samples.offline (Some "") None (Some "Ana B")
           [])
    = [request]
    /\ req_method request = GET
    /\ req_body request = None
    /\ req_url request = "https://rest.messagebird.com/contacts?name=Ana+B".
Proof.
  exact (proj2 (get_contact_lookup Samples.offline None (Some "Ana B") [])
           (Some "") (or_intror eq_refl)).
Defined.

(** The body of a contact: [update_contact] sends the given, non-empty
    fields under their wire names, in a fixed order, and nothing else; an
    update without any field is still sent, with the empty object. *)
Lemma update_contact_body_fields :
  forall msisdn first_name last_name custom1 custom2 custom3 custom4,
    let field (key : string) (value : option string) : props :=
      if truthy (optstr value) then [(key, optstr value)] else [] in
    Contacts.update_contact_body msisdn first_name last_name custom1 custom2
      custom3 custom4
    = JObj (field "msisdn" msisdn ++ field "firstName" first_name
            ++ field "lastName" last_name ++ field "custom1" custom1
            ++ field "custom2" custom2 ++ field "custom3" custom3
            ++ field "custom4" custom4)%list.
Proof.
  intros. subst field. unfold Contacts.update_contact_body, set_if.
  destruct (truthy (optstr msisdn)), (truthy (optstr first_name)),
    (truthy (optstr last_name)), (truthy (optstr custom1)),
    (truthy (optstr custom2)), (truthy (optstr custom3)),
    (truthy (optstr custom4)); reflexivity.
Qed.

(** X11: the body [update_contact] sends holds the given, non-empty
    fields under their wire names ([msisdn], [firstName], [lastName],
    [custom1] to [custom4]), in this order, and nothing else.  An update
    that names no field is not rejected: it is sent as a PATCH of
    [/contacts/<id>] on the REST service with the empty object as its
    body. *)
Theorem update_contact_sends_given_fields :
  forall P contact_id msisdn first_name last_name custom1 custom2 custom3
         custom4 log,
    let field (key : string) (value : option string) : props :=
      if truthy (optstr value) then [(key, optstr value)] else [] in
    let body :=
      JObj (field "msisdn" msisdn ++ field "firstName" first_name
            ++ field "lastName" last_name ++ field "custom1" custom1
            ++ field "custom2" custom2 ++ field "custom3" custom3
            ++ field "custom4" custom4)%list in
    snd (Contacts.update_contact P contact_id msisdn first_name last_name
           custom1 custom2 custom3 custom4 log)
    = (log ++ [ {| req_url :=
                     ("https://rest.messagebird.com/contacts/"
                      ++ contact_id)%string;
                   req_method := PATCH;
                   req_headers :=
                     [ ("Authorization", ("AccessKey " ++ API_KEY P)%string);
                       ("Accept", "application/json");
                       ("Content-Type", "application/json") ];
                   req_body := Some (JSON_stringify P body 0) |} ])%list
    /\ (truthy (optstr msisdn) = false ->
        truthy (optstr first_name) = false ->
        truthy (optstr last_name) = false ->
        truthy (optstr custom1) = false ->
        truthy (optstr custom2) = false ->
        truthy (optstr custom3) = false ->
        truthy (optstr custom4) = false ->
        body = JObj []).
Proof.
  intros. split.
  - unfold Contacts.update_contact. rewrite run_handler. simpl snd.
    rewrite update_contact_body_fields. reflexivity.
  - subst body field. cbv beta. intros -> -> -> -> -> -> ->. reflexivity.
Qed.

Lemma update_contact_sends_given_fields_witness :
  snd (Contacts.update_contact Samples.offline "c1" None (Some "") None None
         None None None [])
  = [ {| req_url := "https://rest.messagebird.com/contacts/c1";
         req_method := PATCH;
         req_headers := [ ("Authorization", "AccessKey test_key");
                          ("Accept", "application/json");
                          ("Content-Type", "application/json") ];
         req_body := Some "{}" |} ].
Proof.
  exact (proj1 (update_contact_sends_given_fields Samples.offline "c1" None
                  (Some "") None None None None None [])).
Defined.

(** * Further properties of the messaging tools *)

(** X12: of the media headers of [send_template] the first one present
    wins, in the order image, video, document: a later header URL does
    not change the payload once an earlier one is given, and the header
    block built is of the kind of the first URL given. *)
Theorem send_template_first_header_wins :
  forall namespace template_name language_code parameters
         header_image_url header_video_url header_document_url
         button_url_suffix,
    let build := Messaging.send_template_hsm namespace template_name
                   language_code parameters in
    let first_block (hsm : props) : jsval :=
      index0 (prop_get "components" hsm) in
    (forall c s,
        build (Some (String c s)) header_video_url header_document_url
          button_url_suffix
        = build (Some (String c s)) None None button_url_suffix
        /\ first_block (build (Some (String c s)) header_video_url
                          header_document_url button_url_suffix)
           = header_block "image" (String c s))
    /\ (forall c s,
          truthy (optstr header_image_url) = false ->
          build header_image_url (Some (String c s)) header_document_url
            button_url_suffix
          = build None (Some (String c s)) None button_url_suffix
          /\ first_block (build header_image_url (Some (String c s))
                            header_document_url button_url_suffix)
             = header_block "video" (String c s))
    /\ (forall c s,
          truthy (optstr header_image_url) = false ->
          truthy (optstr header_video_url) = false ->
          build header_image_url header_video_url (Some (String c s))
            button_url_suffix
          = build None None (Some (String c s)) button_url_suffix
          /\ first_block (build header_image_url header_video_url
                            (Some (String c s)) button_url_suffix)
             = header_block "document" (String c s)).
Proof.
  intros. subst build first_block. cbv beta.
  unfold Messaging.send_template_hsm.
  repeat split; intros; simpl truthy;
    repeat match goal with H : truthy _ = false |- _ => rewrite H end;
    destruct (non_empty parameters), (truthy (optstr button_url_suffix));
    reflexivity.
Qed.

Lemma send_template_first_header_wins_witness :
  index0 (prop_get "components"
            (Messaging.send_template_hsm "ns" "welcome" "en" None (Some "")
               (Some "https://example.com/v.mp4")
               (Some "https://example.com/d.pdf") None))
  = header_block "video" "https://example.com/v.mp4".
Proof.
  destruct (send_template_first_header_wins "ns" "welcome" "en" None
              (Some "") None (Some "https://example.com/d.pdf") None)
    as (_ & Hvideo & _).
  exact (proj2 (Hvideo "h"%char "ttps://example.com/v.mp4" eq_refl)).
Defined.

(** X13: without a media header and without a button suffix
    [send_template] uses the simple shape: the parameters, in their
    order, each as [{ default: p }] under [params], and no [components];
    and without parameters either, an empty list included, the [hsm]
    object holds the namespace, the template name and the language
    only. *)
Theorem send_template_simple_shape :
  forall namespace template_name language_code parameters
         header_image_url header_video_url header_document_url
         button_url_suffix,
    truthy (optstr header_image_url) = false ->
    truthy (optstr header_video_url) = false ->
    truthy (optstr header_document_url) = false ->
    truthy (optstr button_url_suffix) = false ->
    let hsm := Messaging.send_template_hsm namespace template_name
                 language_code parameters header_image_url header_video_url
                 header_document_url button_url_suffix in
    let core :=
      [ ("namespace", JStr namespace);
        ("templateName", JStr template_name);
        ("language",
         JObj [("policy", JStr "deterministic"); ("code", JStr language_code)]) ] in
    (forall p ps,
        parameters = Some (p :: ps) ->
        hsm = (core ++ [("params",
                         JArr (map (fun x => JObj [("default", JStr x)])
                                   (p :: ps)))])%list)
    /\ (parameters = None \/ parameters = Some [] -> hsm = core).
Proof.
  intros namespace template_name language_code parameters header_image_url
    header_video_url header_document_url button_url_suffix
    Himage Hvideo Hdocument Hbutton hsm core.
  subst hsm core. unfold Messaging.send_template_hsm.
  rewrite Himage, Hvideo, Hdocument, Hbutton.
  split.
  - intros p ps ->. reflexivity.
  - intros [-> | ->]; reflexivity.
Qed.

Lemma send_template_simple_shape_witness :
  Messaging.send_template_hsm "ns" "welcome" "en" (Some ["Ana"; "42"])
    None (Some "") None None
  = [ ("namespace", JStr "ns");
      ("templateName", JStr "welcome");
      ("language", JObj [("policy", JStr "deterministic"); ("code", JStr "en")]);
      ("params", JArr [ JObj [("default", JStr "Ana")];
                        JObj [("default", JStr "42")] ]) ].
Proof.
  exact (proj1 (send_template_simple_shape "ns" "welcome" "en"
                  (Some ["Ana"; "42"]) None (Some "") None None
                  eq_refl eq_refl eq_refl eq_refl) "Ana" ["42"] eq_refl).
Defined.

(** X14: the header of an interactive button message is the text header
    when a header text is given, whatever the image URL is; it is the
    image header when only an image URL is given; and there is no header
    without either.  The buttons are sent in their order, each as a
    [reply] button with its identifier and title. *)
Theorem interactive_buttons_header :
  forall body_text buttons header_text header_image_url footer_text,
    let interactive :=
      Messaging.send_interactive_buttons_interactive body_text buttons
        header_text header_image_url footer_text in
    (forall c s,
        header_text = Some (String c s) ->
        prop_get "header" interactive
        = JObj [("type", JStr "text"); ("text", JStr (String c s))])
    /\ (forall c s,
          truthy (optstr header_text) = false ->
          header_image_url = Some (String c s) ->
          prop_get "header" interactive
          = JObj [ ("type", JStr "image");
                   ("image", JObj [("url", JStr (String c s))]) ])
    /\ (truthy (optstr header_text) = false ->
        truthy (optstr header_image_url) = false ->
        prop_has "header" interactive = false)
    /\ prop_get "action" interactive
       = JObj [("buttons",
                JArr (map (fun b => JObj [ ("id", JStr (fst b));
                                           ("type", JStr "reply");
                                           ("title", JStr (snd b)) ])
                          buttons))].
Proof.
  intros. subst interactive.
  unfold Messaging.send_interactive_buttons_interactive, set_if.
  repeat split.
  - intros c s ->. simpl truthy.
    destruct (truthy (optstr footer_text)); reflexivity.
  - intros c s Htext ->. rewrite Htext. simpl truthy.
    destruct (truthy (optstr footer_text)); reflexivity.
  - intros Htext Himage. rewrite Htext, Himage.
    destruct (truthy (optstr footer_text)); reflexivity.
  - destruct (truthy (optstr header_text)),
      (truthy (optstr header_image_url)), (truthy (optstr footer_text));
      reflexivity.
Qed.

Lemma interactive_buttons_header_witness :
  prop_get "header"
    (Messaging.send_interactive_buttons_interactive "Pick one"
       [("yes", "Yes"); ("no", "No")] (Some "Hello")
       (Some "https://example.com/a.png") None)
  = JObj [("type", JStr "text"); ("text", JStr "Hello")].
Proof.
  exact (proj1 (interactive_buttons_header "Pick one"
                  [("yes", "Yes"); ("no", "No")] (Some "Hello")
                  (Some "https://example.com/a.png") None)
           "H"%char "ello" eq_refl).
Defined.

(** * Further properties of the conversation tools *)

(** X15: the content of a reply is built from the fields of its type
    alone.  A text reply ignores the media URL, the caption and the
    coordinates; a media reply ignores the text and the coordinates; a
    location reply ignores the text, the media URL and the caption.  The
    fields of the type are not checked either: a media reply without a
    URL and a location reply without coordinates are built with
    [undefined] in their place. *)
Theorem reply_content_by_type :
  forall text media_url caption latitude longitude,
    Conversations.reply_content "text" text media_url caption latitude
      longitude
    = Conversations.reply_content "text" text None None None None
    /\ (forall type,
          In type ["image"; "video"; "audio"; "file"] ->
          Conversations.reply_content type text media_url caption latitude
            longitude
          = Conversations.reply_content type None media_url caption None None
          /\ Conversations.reply_content type text None None latitude
               longitude
             = Some (JObj [(type, JObj [("url", JUndefined)])]))
    /\ Conversations.reply_content "location" text media_url caption
         latitude longitude
       = Conversations.reply_content "location" None None None latitude
           longitude
    /\ Conversations.reply_content "location" text media_url caption None
         None
       = Some (JObj [("location",
                      JObj [ ("latitude", JUndefined);
                             ("longitude", JUndefined) ])]).
Proof.
  intros. repeat split; try reflexivity;
    simpl in H; destruct H as [<-|[<-|[<-|[<-|[]]]]]; reflexivity.
Qed.

Lemma reply_content_by_type_witness :
  Conversations.reply_content "video" (Some "ignored") None None
    (Some "52.37") (Some "4.89")
  = Some (JObj [("video", JObj [("url", JUndefined)])]).
Proof.
  destruct (reply_content_by_type (Some "ignored") None None (Some "52.37")
              (Some "4.89")) as (_ & Hmedia & _).
  apply (Hmedia "video"). simpl. auto.
Defined.

(** * Further properties of the template tools *)

(** X16: the header block of [create_template].  A TEXT header with a
    text carries the text and no example, whatever the example URL is.
    Any other header with an example URL, a TEXT header without a text
    included, carries the URL as [example.header_url] and no text.  A
    header with neither carries its type and format alone.  Without a
    header type the first block is the body. *)
Theorem create_template_header :
  forall body_text header_type header_text header_example_url footer_text
         button_type button_text button_value body_examples,
    let first :=
      hd JUndefined
         (Templates.create_template_components body_text header_type
            header_text header_example_url footer_text button_type
            button_text button_value body_examples) in
    (forall c s,
        header_type = Some "TEXT" -> header_text = Some (String c s) ->
        first = JObj [ ("type", JStr "HEADER");
                       ("format", JStr "TEXT");
                       ("text", JStr (String c s)) ])
    /\ (forall h hs c s,
          header_type = Some (String h hs) ->
          Templates.is_string header_type "TEXT"
          && truthy (optstr header_text) = false ->
          header_example_url = Some (String c s) ->
          first = JObj [ ("type", JStr "HEADER");
                         ("format", JStr (String h hs));
                         ("example",
                          JObj [("header_url", JArr [JStr (String c s)])]) ])
    /\ (forall h hs,
          header_type = Some (String h hs) ->
          Templates.is_string header_type "TEXT"
          && truthy (optstr header_text) = false ->
          truthy (optstr header_example_url) = false ->
          first = JObj [ ("type", JStr "HEADER");
                         ("format", JStr (String h hs)) ])
    /\ (truthy (optstr header_type) = false ->
        member first "type" = JStr "BODY").
Proof.
  intros. subst first. unfold Templates.create_template_components.
  repeat split.
  - intros c s -> ->.
    destruct (truthy (optstr footer_text)),
      (truthy (optstr button_type) && truthy (optstr button_text));
      reflexivity.
  - intros h hs c s Htype Htext ->. rewrite Htext. rewrite Htype.
    destruct (truthy (optstr footer_text)),
      (truthy (optstr button_type) && truthy (optstr button_text));
      reflexivity.
  - intros h hs Htype Htext Hurl. rewrite Htext, Hurl. rewrite Htype.
    destruct (truthy (optstr footer_text)),
      (truthy (optstr button_type) && truthy (optstr button_text));
      reflexivity.
  - intros Htype. rewrite Htype. unfold set_if.
    destruct (non_empty body_examples), (truthy (optstr footer_text)),
      (truthy (optstr button_type) && truthy (optstr button_text));
      reflexivity.
Qed.

Lemma create_template_header_witness :
  hd JUndefined
     (Templates.create_template_components "Hello" (Some "TEXT") (Some "")
        (Some "https://example.com/a.png") None None None None None)
  = JObj [ ("type", JStr "HEADER");
           ("format", JStr "TEXT");
           ("example",
            JObj [("header_url", JArr [JStr "https://example.com/a.png"])]) ].
Proof.
  destruct (create_template_header "Hello" (Some "TEXT") (Some "")
              (Some "https://example.com/a.png") None None None None None)
    as (_ & Hexample & _).
  exact (Hexample "T"%char "EXT" "h"%char "ttps://example.com/a.png"
           eq_refl eq_refl eq_refl).
Defined.

(** X17: the body block of [create_template] carries the example values
    as the one element of [example.body_text], itself the array of the
    values in their order, when examples are given; an empty list of
    examples leaves the block without an [example], as no list does. *)
Theorem create_template_body_example :
  forall body_text header_type header_text header_example_url footer_text
         button_type button_text button_value body_examples,
    let components :=
      Templates.create_template_components body_text header_type
        header_text header_example_url footer_text button_type button_text
        button_value body_examples in
    (forall e es,
        body_examples = Some (e :: es) ->
        In (JObj [ ("type", JStr "BODY");
                   ("text", JStr body_text);
                   ("example",
                    JObj [("body_text", JArr [JArr (map JStr (e :: es))])]) ])
           components)
    /\ (body_examples = None \/ body_examples = Some [] ->
        In (JObj [("type", JStr "BODY"); ("text", JStr body_text)])
           components).
Proof.
  intros. subst components. unfold Templates.create_template_components.
  split.
  - intros e es ->. cbn [non_empty List.length Nat.ltb Nat.leb set_if
                          elements_of].
    destruct (truthy (optstr header_type));
      destruct (truthy (optstr footer_text));
      destruct (truthy (optstr button_type) && truthy (optstr button_text));
      simpl; auto.
  - intros Hnone.
    assert (Hempty : non_empty body_examples = false)
      by (destruct Hnone as [-> | ->]; reflexivity).
    rewrite Hempty. cbn [set_if].
    destruct (truthy (optstr header_type));
      destruct (truthy (optstr footer_text));
      destruct (truthy (optstr button_type) && truthy (optstr button_text));
      simpl; auto.
Qed.

Lemma create_template_body_example_witness :
  In (JObj [("type", JStr "BODY"); ("text", JStr "Hello {{1}}")])
     (Templates.create_template_components "Hello {{1}}" None None None
        (Some "Bye") None None None (Some [])).
Proof.
  exact (proj2 (create_template_body_example "Hello {{1}}" None None None
                  (Some "Bye") None None None (Some []))
           (or_intror eq_refl)).
Defined.

Lemma Substituted_without_placeholder (by_ s : string) :
  ~ has_placeholder s -> Substituted by_ s s.
Proof.
  induction s as [|c s IH]; intros Hnone.
  - constructor.
  - apply Substituted_char.
    + intros token after Htoken Heq. apply Hnone.
      exists "", token, after. now split.
    + apply IH. intros (before & token & after & Htoken & ->).
      apply Hnone. exists (String c before), token, after. now split.
Qed.

Lemma replace_without_placeholder (by_ s : string) :
  ~ has_placeholder s -> replace_placeholders s by_ = s.
Proof.
  intros Hnone. symmetry. apply Substituted_replace_placeholders.
  now apply Substituted_without_placeholder.
Qed.

(** X18: the button of [create_template], built when a button type and
    a button text are given.  A PHONE_NUMBER button with a value carries
    it as [phone_number]; a URL button with a value carries it as [url],
    with an [example] only when the value includes two opening braces,
    and that example is the value itself when the braces do not belong to
    a placeholder; a button of another type, or without a value, carries
    its type and text alone. *)
Theorem create_template_button :
  forall body_text header_type header_text header_example_url footer_text
         type label button_value body_examples t ts l ls,
    type = String t ts -> label = String l ls ->
    let buttons (button : props) : jsval :=
      JObj [("type", JStr "BUTTONS"); ("buttons", JArr [JObj button])] in
    let block :=
      last (Templates.create_template_components body_text header_type
              header_text header_example_url footer_text (Some type)
              (Some label) button_value body_examples) JUndefined in
    (forall c s,
        type = "PHONE_NUMBER" -> button_value = Some (String c s) ->
        block = buttons [ ("type", JStr type); ("text", JStr label);
                          ("phone_number", JStr (String c s)) ])
    /\ (forall c s,
          type = "URL" -> button_value = Some (String c s) ->
          includes (String c s) "{{" = false ->
          block = buttons [ ("type", JStr type); ("text", JStr label);
                            ("url", JStr (String c s)) ])
    /\ (forall c s,
          type = "URL" -> button_value = Some (String c s) ->
          includes (String c s) "{{" = true ->
          ~ has_placeholder (String c s) ->
          block = buttons [ ("type", JStr type); ("text", JStr label);
                            ("url", JStr (String c s));
                            ("example", JArr [JStr (String c s)]) ])
    /\ (type <> "PHONE_NUMBER" -> type <> "URL" ->
        block = buttons [("type", JStr type); ("text", JStr label)])
    /\ (truthy (optstr button_value) = false ->
        block = buttons [("type", JStr type); ("text", JStr label)]).
Proof.
  intros body_text header_type header_text header_example_url footer_text
    type label button_value body_examples t ts l ls Htype Hlabel
    buttons block.
  assert (Hgiven : truthy (optstr (Some type)) && truthy (optstr (Some label))
                   = true) by (subst type label; reflexivity).
  subst block buttons. unfold Templates.create_template_components.
  rewrite Hgiven. cbv beta.
  repeat split.
  - intros c s Hphone ->. rewrite Hphone. simpl. apply last_last.
  - intros c s Hurl -> Hincludes. rewrite Hurl.
    cbn [Templates.is_string optstr]. simpl truthy.
    rewrite Hincludes. simpl. apply last_last.
  - intros c s Hurl -> Hincludes Hnone. rewrite Hurl.
    cbn [Templates.is_string optstr]. simpl truthy.
    rewrite Hincludes, (replace_without_placeholder _ _ Hnone).
    simpl. apply last_last.
  - intros Hphone Hurl.
    apply String.eqb_neq in Hphone, Hurl.
    cbn [Templates.is_string]. rewrite Hphone, Hurl. simpl.
    apply last_last.
  - intros Hvalue. rewrite Hvalue. repeat rewrite andb_false_r.
    simpl. apply last_last.
Qed.

Lemma placeholder_anywhere_iff (s : string) :
  has_placeholder s <-> placeholder_anywhere s = true.
Proof.
  split.
  - intros (before & token & after & Htoken & ->).
    induction before as [|c before IH].
    + simpl append.
      assert (Hm : match_placeholder (token ++ after) = Some after)
        by (apply match_placeholder_iff; now exists token).
      remember (token ++ after) as u eqn:Eu. clear Eu.
      destruct u as [|x u]; [cbv in Hm; discriminate Hm|].
      cbn [placeholder_anywhere]. rewrite Hm. reflexivity.
    + change (String c before ++ token ++ after)
        with (String c (before ++ token ++ after)).
      cbn [placeholder_anywhere]. rewrite IH.
      destruct (match_placeholder _); reflexivity.
  - induction s as [|c s IH]; cbn [placeholder_anywhere]; intros H.
    + discriminate H.
    + destruct (match_placeholder (String c s)) as [after|] eqn:Em.
      * apply match_placeholder_iff in Em.
        destruct Em as (token & Ht & Heq).
        exists "", token, after. now split.
      * destruct (IH H) as (before & token & after & Ht & ->).
        exists (String c before), token, after. now split.
Qed.

Lemma create_template_button_witness :
  last (Templates.create_template_components "Hello" None None None None
          (Some "URL") (Some "Open") (Some "https://example.com/{{name}}")
          None) JUndefined
  = JObj [ ("type", JStr "BUTTONS");
           ("buttons",
            JArr [ JObj [ ("type", JStr "URL");
                          ("text", JStr "Open");
                          ("url", JStr "https://example.com/{{name}}");
                          ("example",
                           JArr [JStr "https://example.com/{{name}}"]) ] ]) ].
Proof.
  destruct (create_template_button "Hello" None None None None "URL" "Open"
              (Some "https://example.com/{{name}}") None
              "U"%char "RL" "O"%char "pen" eq_refl eq_refl)
    as (_ & _ & Hbraces & _).
  apply (Hbraces "h"%char "ttps://example.com/{{name}}" eq_refl eq_refl
           eq_refl).
  intros Hhas. apply placeholder_anywhere_iff in Hhas. discriminate Hhas.
Defined.

(** ** The generated example holds no placeholder *)

Lemma match_placeholder_other_head (x : ascii) (s : string) :
  x <> "{"%char -> match_placeholder (String x s) = None.
Proof.
  intros Hx. unfold match_placeholder, after_pair.
  destruct s as [|y s]; [reflexivity|].
  destruct (Ascii.eqb_spec x "{"); [contradiction|]. reflexivity.
Qed.

Lemma placeholder_anywhere_other_head (x : ascii) (s : string) :
  x <> "{"%char ->
  placeholder_anywhere (String x s) = placeholder_anywhere s.
Proof.
  intros Hx. cbn [placeholder_anywhere].
  now rewrite match_placeholder_other_head.
Qed.

(** A character of the output that the replacement does not start with
    was copied from the input, at a position without a match. *)
Lemma Substituted_head_copied (x : ascii) (m t : string) :
  Substituted "example_value" m (String x t) ->
  x <> "e"%char ->
  exists m', m = String x m' /\ Substituted "example_value" m' t.
Proof.
  intros H Hx. inversion H; subst; try congruence; eauto.
Qed.

Lemma Substituted_prefix_copied (pre : string) :
  forall m t,
    free_of "e" pre = true ->
    Substituted "example_value" m (pre ++ t) ->
    exists m', m = pre ++ m' /\ Substituted "example_value" m' t.
Proof.
  induction pre as [|x pre IH]; intros m t Hfree H.
  - exists m. now split.
  - simpl in Hfree. apply andb_prop in Hfree. destruct Hfree as [Hx Hfree].
    assert (Hne : x <> "e"%char)
      by (intros ->; discriminate Hx).
    destruct (Substituted_head_copied x m (pre ++ t) H Hne)
      as (m1 & -> & H1).
    destruct (IH m1 t Hfree H1) as (m' & -> & H').
    exists m'. now split.
Qed.

Lemma digits_free_of_e (digits : string) :
  all_digits digits = true -> free_of "e" digits = true.
Proof.
  induction digits as [|c digits IH]; simpl; intros H; [reflexivity|].
  apply andb_prop in H. destruct H as [Hc H].
  rewrite (IH H), andb_true_r.
  destruct (Ascii.eqb_spec c "e") as [->|]; [discriminate Hc | reflexivity].
Qed.

Lemma free_of_app (c : ascii) (a b : string) :
  free_of c (a ++ b) = free_of c a && free_of c b.
Proof.
  induction a as [|x a IH]; simpl; [reflexivity|].
  rewrite IH. now rewrite andb_assoc.
Qed.

Lemma Substituted_leaves_no_placeholder (s out : string) :
  Substituted "example_value" s out -> placeholder_anywhere out = false.
Proof.
  induction 1 as [|token more out Htoken Hsub IH|c more out Hnone Hsub IH].
  - reflexivity.
  - simpl append.
    repeat (rewrite placeholder_anywhere_other_head by discriminate).
    exact IH.
  - cbn [placeholder_anywhere]. rewrite IH.
    destruct (match_placeholder (String c out)) as [after|] eqn:Em;
      [|reflexivity].
    exfalso.
    apply match_placeholder_iff in Em.
    destruct Em as (token & (digits & Hne & Hall & ->) & Heq).
    simpl in Heq.
    inversion Heq as [[Hc Hout]]. subst c out.
    change (Substituted "example_value" more
              (String "{" (digits ++ "}}") ++ after)) in Hsub.
    assert (Hfree : free_of "e" (String "{" (digits ++ "}}")) = true).
    { simpl. rewrite free_of_app, (digits_free_of_e _ Hall). reflexivity. }
    destruct (Substituted_prefix_copied _ _ _ Hfree Hsub) as (m' & -> & _).
    apply (Hnone ("{{" ++ digits ++ "}}") m').
    + now exists digits.
    + reflexivity.
Qed.

(** X19: the example [create_template] generates for a URL button holds
    no placeholder: after the replacement by "example_value" no
    [{{digits}}] is left anywhere in the text, and replacing again changes
    nothing. *)
Theorem generated_example_has_no_placeholder :
  forall value,
    let example := replace_placeholders value "example_value" in
    ~ has_placeholder example
    /\ replace_placeholders example "example_value" = example.
Proof.
  intros value example.
  assert (Hnone : ~ has_placeholder example).
  { intros Hhas. apply placeholder_anywhere_iff in Hhas.
    rewrite (Substituted_leaves_no_placeholder value example) in Hhas;
      [discriminate|].
    now apply Substituted_replace_placeholders. }
  split; [exact Hnone|].
  now apply replace_without_placeholder.
Qed.

(** * Further properties of the query string *)

Lemma urlencode_byte_free_of (x : ascii) :
  free_of "&" (urlencode_byte x) = true
  /\ free_of "=" (urlencode_byte x) = true.
Proof.
  destruct x as [[] [] [] [] [] [] [] []]; split; reflexivity.
Qed.

Lemma urlencode_free_of (s : string) :
  free_of "&" (urlencode s) = true /\ free_of "=" (urlencode s) = true.
Proof.
  induction s as [|x s [IHamp IHeq]]; simpl; [now split|].
  destruct (urlencode_byte_free_of x) as [Hamp Heq].
  rewrite !free_of_app, Hamp, Heq, IHamp, IHeq. now split.
Qed.

Lemma split_at_separator (sep : ascii) (a b : string) :
  free_of sep a = true ->
  split_at sep (a ++ String sep b) = (a, Some b).
Proof.
  induction a as [|x a IH]; simpl; intros Hfree.
  - now rewrite Ascii.eqb_refl.
  - apply andb_prop in Hfree. destruct Hfree as [Hx Hfree].
    apply negb_true_iff in Hx. rewrite Hx, (IH Hfree). reflexivity.
Qed.

Lemma split_at_none (sep : ascii) (a : string) :
  free_of sep a = true -> split_at sep a = (a, None).
Proof.
  induction a as [|x a IH]; simpl; intros Hfree; [reflexivity|].
  apply andb_prop in Hfree. destruct Hfree as [Hx Hfree].
  apply negb_true_iff in Hx. rewrite Hx, (IH Hfree). reflexivity.
Qed.

Lemma parse_pair_encode_pair (p : string * string) :
  parse_pair (encode_pair p) = p.
Proof.
  destruct p as [k v]. unfold parse_pair, encode_pair. simpl fst. simpl snd.
  change (urlencode k ++ "=" ++ urlencode v)
    with (urlencode k ++ String "=" (urlencode v)).
  rewrite split_at_separator by apply urlencode_free_of.
  now rewrite !urldecode_urlencode.
Qed.

Lemma encode_pair_free_of_ampersand (p : string * string) :
  free_of "&" (encode_pair p) = true.
Proof.
  unfold encode_pair. rewrite !free_of_app.
  destruct (urlencode_free_of (fst p)) as [-> _].
  destruct (urlencode_free_of (snd p)) as [-> _]. reflexivity.
Qed.

Lemma split_all_join (l : list string) :
  (forall e, In e l -> free_of "&" e = true) ->
  l <> [] ->
  forall fuel,
    List.length l <= S fuel ->
    split_all fuel "&" (join_with "&" l) = l.
Proof.
  induction l as [|e l IH]; intros Hfree Hne fuel Hfuel; [contradiction|].
  destruct l as [|e2 l].
  - simpl. destruct fuel; [reflexivity|]. simpl.
    rewrite split_at_none by (apply Hfree; now left). reflexivity.
  - destruct fuel as [|fuel]; [simpl in Hfuel; lia|].
    change (join_with "&" (e :: e2 :: l))
      with (e ++ String "&" (join_with "&" (e2 :: l))).
    cbn [split_all].
    rewrite split_at_separator by (apply Hfree; now left).
    rewrite IH; auto.
    + intros x Hx. apply Hfree. now right.
    + discriminate.
    + simpl in *. lia.
Qed.

Lemma join_with_length (l : list string) :
  List.length l <= S (String.length (join_with "&" l)).
Proof.
  induction l as [|e l IH]; [simpl; lia|].
  destruct l as [|e2 l]; [simpl; lia|].
  change (join_with "&" (e :: e2 :: l))
    with (e ++ String "&" (join_with "&" (e2 :: l))).
  rewrite string_length_app. simpl in *. lia.
Qed.

(** X20: the query string can be read back.  Splitting it at every [&],
    each part at its first [=], and decoding key and value gives exactly
    the parameters it was built from, in their order: no key and no value
    can add, drop or alter a parameter.  For the entries of a query
    object these are the entries with a value that is neither [undefined]
    nor empty. *)
Theorem query_string_reads_back :
  (forall params : URLSearchParams,
      parse_query (URLSearchParams_toString params) = params)
  /\ (forall entries : QueryParams,
        NoDup (map fst entries) ->
        parse_query (URLSearchParams_toString (collect_params entries))
        = surviving entries).
Proof.
  assert (Hback : forall params : URLSearchParams,
             parse_query (URLSearchParams_toString params) = params).
  { intros params. unfold parse_query.
    destruct params as [|p params]; [reflexivity|].
    destruct (String.eqb_spec (URLSearchParams_toString (p :: params)) "")
      as [Hempty|_].
    - exfalso. exact (query_string_nonempty p params Hempty).
    - unfold URLSearchParams_toString.
      rewrite split_all_join.
      + rewrite map_map.
        rewrite (map_ext _ (fun x => x) parse_pair_encode_pair).
        apply map_id.
      + intros e He. apply in_map_iff in He.
        destruct He as (q & <- & _). apply encode_pair_free_of_ampersand.
      + discriminate.
      + apply join_with_length. }
  split; [exact Hback|].
  intros entries Hnodup. rewrite Hback.
  now apply collect_params_surviving.
Qed.

Lemma query_string_reads_back_witness :
  parse_query "offset=10&name=Ana+B%26C%3D1"
  = [("offset", "10"); ("name", "Ana B&C=1")].
Proof.
  assert (Hkeys : NoDup (map fst [ ("offset", Some "10");
                                   ("limit", @None string);
                                   ("name", Some "Ana B&C=1") ])).
  { simpl. repeat constructor; simpl; intuition discriminate. }
  exact (proj2 query_string_reads_back _ Hkeys).
Defined.

(** * Further properties of flags and parsed input *)

(** X21: a boolean flag is forwarded whenever it is given, [false]
    included, and left out only when it is not given: the handlers test
    it against [undefined], not for truthiness.  So for
    [disable_url_preview] of [send_text], sent as
    [content.disableUrlPreview], and for [allow_category_change] of
    [create_template], sent as [allowCategoryChange]. *)
Theorem boolean_flags_are_forwarded :
  (forall to from text report_url flag,
      let content (preview : option bool) :=
        member (Messaging.send_text_body to from text preview report_url)
          "content" in
      content (Some flag)
      = JObj [("text", JStr text); ("disableUrlPreview", JBool flag)]
      /\ content None = JObj [("text", JStr text)])
  /\ (forall name language category body_text header_type header_text
             header_example_url footer_text button_type button_text
             button_value body_examples waba_id flag,
        let body (allow : option bool) :=
          Templates.create_template_body name language category body_text
            header_type header_text header_example_url footer_text
            button_type button_text button_value body_examples waba_id
            allow in
        member (body (Some flag)) "allowCategoryChange" = JBool flag
        /\ has_member (body None) "allowCategoryChange" = false).
Proof.
  split.
  - cbv zeta. intros.
    unfold Messaging.send_text_body, set_if.
    destruct (truthy (optstr report_url)); split; reflexivity.
  - cbv zeta. intros.
    unfold Templates.create_template_body, set_if.
    destruct (truthy (optstr waba_id)); split; reflexivity.
Qed.

(** X22: [update_template] sends the parsed components as they are,
    whatever JSON value the text holds: when the text parses, the handler
    sends one PUT of [/v2/platforms/whatsapp/templates/<name>/<language>]
    on the integrations service whose body holds the account, the parsed
    value under [components] and the category when one is given. *)
Theorem update_template_sends_parsed_components :
  forall P name language waba_id components category log parsed,
    JSON_parse P components = Normal parsed ->
    let body :=
      JObj ([("wabaId", JStr waba_id); ("components", parsed)]
            ++ if truthy (optstr category)
               then [("category", optstr category)] else [])%list in
    snd (Templates.update_template P name language waba_id components
           category log)
    = (log ++ [ {| req_url :=
                     ("https://integrations.messagebird.com"
                      ++ "/v2/platforms/whatsapp/templates/" ++ name ++ "/"
                      ++ language)%string;
                   req_method := PUT;
                   req_headers :=
                     [ ("Authorization", ("AccessKey " ++ API_KEY P)%string);
                       ("Accept", "application/json");
                       ("Content-Type", "application/json") ];
                   req_body := Some (JSON_stringify P body 0) |} ])%list.
Proof.
  intros P name language waba_id components category log parsed Hparse body.
  unfold Templates.update_template. rewrite Hparse.
  rewrite run_handler. simpl snd. subst body.
  unfold http_request, request_headers, request_url,
    Templates.update_template_body, set_if. simpl.
  destruct (truthy (optstr category)); reflexivity.
Qed.

Lemma update_template_sends_parsed_components_witness :
  snd (Templates.update_template Samples.offline "welcome" "en" "waba1" "{}"
         (Some "") [])
  = [ {| req_url :=
           "https://integrations.messagebird.com/v2/platforms/whatsapp/templates/welcome/en";
         req_method := PUT;
         req_headers := [ ("Authorization", "AccessKey test_key");
                          ("Accept", "application/json");
                          ("Content-Type", "application/json") ];
         req_body :=
           Some (Samples.stringify
                   (JObj [("wabaId", JStr "waba1"); ("components", JObj [])])
                   0) |} ].
Proof.
  exact (update_template_sends_parsed_components Samples.offline "welcome"
           "en" "waba1" "{}" (Some "") [] (JObj []) eq_refl).
Defined.
